(** * vite-plugin-backend: a shallow embedding of [src/index.ts]

    The plugin normalises its own options ([resolvePluginConfig]), feeds
    fallback values into the bundler configuration (the [config] hook),
    computes the dev-server URL once the socket is bound
    ([resolveDevServerUrl]), publishes it in the hot file and removes that
    file again when the process exits.

    Conventions of the embedding.
    - A JavaScript string is a [string]; each character stands for one code
      unit, so the embedding covers the strings whose code units are below
      256.
    - An optional property, or a value that may be [undefined], is an
      [option]; [None] is [undefined].
    - A function that may [throw] returns a [Result].
    - The file system is a finite map from path names to files and
      directories, with the paths at which a write is refused.
    - Library functions whose code is not part of the repository
      ([path.join], [new URL(..).host], [loadEnv]) are section variables;
      [config] computes the hook's result from what [loadEnv] returned,
      [configHook] is the hook with the call of [loadEnv] in it. *)

From stdpp Require Import base option list strings gmap pretty.
From Stdlib Require Import Ascii String NArith Lia.

Local Open Scope string_scope.

(** ** JavaScript values and exceptions *)

Inductive Exn :=
  | Error (message : string)
  | TypeError (message : string)
  | SystemError (code path : string).

Inductive Result (A : Type) :=
  | Return (a : A)
  | Throw (e : Exn).
Arguments Return {A} a.
Arguments Throw {A} e.

#[export] Instance Result_bind : MBind Result := λ A B k r,
  match r with
  | Return a => k a
  | Throw e => Throw e
  end.

Definition threw {A} (r : Result A) : Prop := ∃ e, r = Throw e.

(** [a ?? b] *)
Definition nullish {A} (a : option A) (b : A) : A :=
  match a with Some x => x | None => b end.

Infix "??" := nullish (at level 45, left associativity).

(** Truthiness of a string that may be [undefined]: [""] and [undefined]
    are falsy. *)
Definition truthy (s : option string) : bool :=
  match s with
  | Some (String _ _) => true
  | _ => false
  end.

(** [`${x}`] of a string that may be [undefined]. *)
Definition show (s : option string) : string := s ?? "undefined".

(** ** String primitives *)

Module Str.

Fixpoint dropWhile (p : ascii → bool) (s : string) : string :=
  match s with
  | EmptyString => EmptyString
  | String c s' => if p c then dropWhile p s' else s
  end.

Fixpoint dropWhileEnd (p : ascii → bool) (s : string) : string :=
  match s with
  | EmptyString => EmptyString
  | String c s' =>
      match dropWhileEnd p s' with
      | EmptyString => if p c then EmptyString else String c EmptyString
      | r => String c r
      end
  end.

(** WhiteSpace and LineTerminator code units below 256: TAB, LF, VT, FF,
    CR, SP and NBSP. *)
Definition isWhiteSpace (c : ascii) : bool :=
  let n := N_of_ascii c in
  ((9 <=? n) && (n <=? 13) || (n =? 32) || (n =? 160))%N.

Definition isSlash (c : ascii) : bool := Ascii.eqb c "/".

(** [String.prototype.trim] *)
Definition trim (s : string) : string :=
  dropWhileEnd isWhiteSpace (dropWhile isWhiteSpace s).

(** [s.replace(/^\/+/, "")] *)
Definition stripLeadingSlashes (s : string) : string := dropWhile isSlash s.

(** [s.replace(/\/+$/, "")] *)
Definition stripTrailingSlashes (s : string) : string := dropWhileEnd isSlash s.

Fixpoint last (s : string) : option ascii :=
  match s with
  | EmptyString => None
  | String c EmptyString => Some c
  | String _ s' => last s'
  end.

(** [s.endsWith("/")] *)
Definition endsWithSlash (s : string) : bool :=
  match last s with
  | Some c => isSlash c
  | None => false
  end.

Fixpoint isPrefix (p s : string) : bool :=
  match p, s with
  | EmptyString, _ => true
  | String a p', String b s' => Ascii.eqb a b && isPrefix p' s'
  | String _ _, EmptyString => false
  end.

Fixpoint drop (n : nat) (s : string) : string :=
  match n, s with
  | S n', String _ s' => drop n' s'
  | _, _ => s
  end.

Fixpoint mem (c : ascii) (s : string) : bool :=
  match s with
  | EmptyString => false
  | String d s' => Ascii.eqb c d || mem c s'
  end.

Fixpoint split_go (sep : ascii) (cur : string) (s : string) : list string :=
  match s with
  | EmptyString => [String.rev cur]
  | String c s' =>
      if Ascii.eqb c sep then String.rev cur :: split_go sep EmptyString s'
      else split_go sep (String c cur) s'
  end.

(** [s.split(sep)] for a one-character separator. *)
Definition split (sep : ascii) (s : string) : list string :=
  split_go sep EmptyString s.

End Str.

(** ** A POSIX instance of [path.join]

    The hooks are stated for any [path.join]; this instance, which follows
    Node's [path.posix.join] on two arguments, is the one the examples
    run with. *)

Module Posix.

Definition step (allowAboveRoot : bool) (acc : list string) (seg : string)
  : list string :=
  if decide (seg = "" ∨ seg = ".") then acc
  else if decide (seg = "..") then
    match acc with
    | [] => if allowAboveRoot then [".."] else []
    | top :: rest =>
        if decide (top = "..") then ".." :: acc else rest
    end
  else seg :: acc.

(** Segments are kept in reverse order while folding. *)
Definition normalizeString (path : string) (allowAboveRoot : bool) : string :=
  let segs := foldl (step allowAboveRoot) [] (Str.split "/" path) in
  match rev segs with
  | [] => ""
  | s :: ss => foldl (fun acc x => acc +:+ "/" +:+ x) s ss
  end.

Definition normalize (path : string) : string :=
  match path with
  | EmptyString => "."
  | _ =>
      let isAbsolute := Str.isPrefix "/" path in
      let trailingSeparator := Str.endsWithSlash path in
      let p := normalizeString path (negb isAbsolute) in
      match p with
      | EmptyString =>
          if isAbsolute then "/"
          else if trailingSeparator then "./" else "."
      | _ =>
          let p' := if trailingSeparator then p +:+ "/" else p in
          if isAbsolute then "/" +:+ p' else p'
      end
  end.

Definition join (a b : string) : string :=
  match a, b with
  | EmptyString, EmptyString => "."
  | EmptyString, _ => normalize b
  | _, EmptyString => normalize a
  | _, _ => normalize (a +:+ "/" +:+ b)
  end.

End Posix.

(** ** Plugin configuration *)

Inductive Input :=
  | InputPath (p : string)
  | InputPaths (ps : list string).

(** [detectTls?: string | boolean | null] *)
Inductive DetectTls :=
  | TlsNull
  | TlsBool (b : bool)
  | TlsString (s : string).

(** [transformOnServe]'s second argument is the closure variable
    [viteDevServerUrl], which is [undefined] until it is assigned. *)
Definition Transform := string → option string → string.

(** [interface PluginConfig]; [cInput] is optional here because the code
    tests [typeof config.input === "undefined"]. *)
Record PluginConfig := {
  cName : option string;
  cInput : option Input;
  cPublicDirectory : option string;
  cBuildDirectory : option string;
  cHotFile : option string;
  cDetectTls : option DetectTls;
  cTransformOnServe : option Transform;
}.

(** [Required<PluginConfig>] *)
Record RequiredPluginConfig := {
  name : string;
  input : Input;
  publicDirectory : string;
  buildDirectory : string;
  hotFile : string;
  detectTls : DetectTls;
  transformOnServe : Transform;
}.

(** The argument of [backend] and [resolvePluginConfig]. *)
Inductive ConfigArg :=
  | ArgUndefined
  | ArgString (p : string)
  | ArgArray (ps : list string)
  | ArgObject (c : PluginConfig).

Definition onlyInput (i : Input) : PluginConfig :=
  {| cName := None; cInput := Some i; cPublicDirectory := None;
     cBuildDirectory := None; cHotFile := None; cDetectTls := None;
     cTransformOnServe := None |}.

(** A resolved configuration read back as a [PluginConfig] object. *)
Definition asPluginConfig (r : RequiredPluginConfig) : PluginConfig :=
  {| cName := Some (name r); cInput := Some (input r);
     cPublicDirectory := Some (publicDirectory r);
     cBuildDirectory := Some (buildDirectory r);
     cHotFile := Some (hotFile r);
     cDetectTls := Some (detectTls r);
     cTransformOnServe := Some (transformOnServe r) |}.

Definition missingConfiguration : Exn :=
  Error "vite-plugin-backend: missing configuration.".
Definition dquote : string := String "034" EmptyString.
Definition missingInput : Exn :=
  Error ("vite-plugin-backend: missing configuration for "
           +:+ dquote +:+ "input" +:+ dquote +:+ ".").
Definition emptyPublicDirectory : Exn :=
  Error "vite-plugin-backend: publicDirectory must be a subdirectory. E.g. 'public'.".
Definition emptyBuildDirectory : Exn :=
  Error "vite-plugin-backend: buildDirectory must be a subdirectory. E.g. 'build'.".

Definition normalizePublicDirectory (s : string) : string :=
  Str.stripLeadingSlashes (Str.trim s).

Definition normalizeBuildDirectory (s : string) : string :=
  Str.stripTrailingSlashes (Str.stripLeadingSlashes (Str.trim s)).

(** The two [if (typeof config.x === "string")] blocks: the normalised
    value is stored back in [config], an empty one throws. *)
Definition checkDirectory (normalize : string → string) (e : Exn)
    (d : option string) : Result (option string) :=
  match d with
  | None => Return None
  | Some s =>
      let s' := normalize s in
      if decide (s' = "") then Throw e else Return (Some s')
  end.

Section WithPath.

(** [path.join] on two arguments. *)
Variable path_join : string → string → string.

(** [resolvePluginConfig] once [config] is an object. *)
Definition resolveObject (config : PluginConfig) : Result RequiredPluginConfig :=
  match cInput config with
  | None => Throw missingInput
  | Some i =>
      pd ← checkDirectory normalizePublicDirectory emptyPublicDirectory
             (cPublicDirectory config);
      bd ← checkDirectory normalizeBuildDirectory emptyBuildDirectory
             (cBuildDirectory config);
      Return
        {| name := cName config ?? "backend";
           input := i;
           publicDirectory := pd ?? "public";
           buildDirectory := bd ?? "build";
           hotFile := cHotFile config ?? path_join (pd ?? "public") "hot";
           detectTls := cDetectTls config ?? TlsNull;
           transformOnServe := cTransformOnServe config ?? (λ code _, code) |}
  end.

Definition resolvePluginConfig (config : ConfigArg) : Result RequiredPluginConfig :=
  match config with
  | ArgUndefined => Throw missingConfiguration
  | ArgString p => resolveObject (onlyInput (InputPath p))
  | ArgArray ps => resolveObject (onlyInput (InputPaths ps))
  | ArgObject c => resolveObject c
  end.

(** [resolveBase] *)
Definition resolveBase (config : RequiredPluginConfig) (assetUrl : string) : string :=
  assetUrl +:+ (if negb (Str.endsWithSlash assetUrl) then "/" else "")
    +:+ buildDirectory config +:+ "/".

(** [resolveInput] *)
Definition resolveInput (config : RequiredPluginConfig) : Input := input config.

(** [resolveOutDir] *)
Definition resolveOutDir (config : RequiredPluginConfig) : string :=
  path_join (publicDirectory config) (buildDirectory config).

End WithPath.

(** ** The bundler's configuration, as far as the plugin reads or writes it *)

Inductive Command := Build | Serve.

(** [HmrOptions] *)
Record HmrOptions := {
  hmrProtocol : option string;
  hmrHost : option string;
  hmrPort : option N;
  hmrClientPort : option N;
  hmrPath : option string;
  hmrTimeout : option N;
  hmrOverlay : option bool;
}.

(** The empty object literal. *)
Definition noHmrOptions : HmrOptions :=
  {| hmrProtocol := None; hmrHost := None; hmrPort := None;
     hmrClientPort := None; hmrPath := None; hmrTimeout := None;
     hmrOverlay := None |}.

(** [server.hmr?: boolean | HmrOptions] *)
Inductive Hmr :=
  | HmrBool (b : bool)
  | HmrObject (o : HmrOptions).

(** [server.host?: string | boolean] *)
Inductive Host :=
  | HostBool (b : bool)
  | HostName (s : string).

(** [server.https]; [key] and [cert] hold file contents. *)
Record HttpsOptions := {
  key : option string;
  cert : option string;
}.

Record ServerOptions := {
  origin : option string;
  host : option Host;
  hmr : option Hmr;
  https : option HttpsOptions;
}.

Inductive Manifest :=
  | ManifestBool (b : bool)
  | ManifestName (s : string).

(** [publicDir?: string | false] *)
Inductive PublicDir :=
  | PublicDirFalse
  | PublicDirPath (s : string).

Inductive RollupInput :=
  | RollupPath (p : string)
  | RollupPaths (ps : list string)
  | RollupNamed (entries : list (string * string)).

Record RollupOptions := {
  rollupInput : option RollupInput;
}.

Record BuildOptions := {
  manifest : option Manifest;
  outDir : option string;
  rollupOptions : option RollupOptions;
  assetsInlineLimit : option N;
}.

Inductive Alias :=
  | AliasArray (entries : list (string * string))
  | AliasObject (entries : list (string * string)).

Record ResolveOptions := {
  alias : option Alias;
}.

(** [UserConfig]: the argument of the [config] hook and also its result. *)
Record UserConfig := {
  base : option string;
  publicDir : option PublicDir;
  build : option BuildOptions;
  server : option ServerOptions;
  resolve : option ResolveOptions;
  envDir : option string;
}.

(** [ResolvedConfig]: [server] is always there. *)
Record ResolvedConfig := {
  command : Command;
  mode : string;
  resolvedEnvDir : option string;
  resolvedServer : ServerOptions;
}.

(** ** Files *)

(** What a path can name. *)
Inductive Node :=
  | File (data : string)
  | Directory.

(** The file system: the node at each path that exists, and the paths at
    which the operating system refuses to create or replace a file, each
    with the error code it gives (ENOENT for a missing parent directory,
    ENOTDIR, EACCES, EROFS). *)
Record FileSystem := {
  nodes : gmap string Node;
  unwritable : gmap string string;
}.

#[export] Instance FileSystem_empty : Empty FileSystem :=
  {| nodes := ∅; unwritable := ∅ |}.

(** [files !! path] is the contents of the regular file at [path]. *)
#[export] Instance FileSystem_lookup : Lookup string string FileSystem :=
  λ path files,
    match nodes files !! path with
    | Some (File data) => Some data
    | _ => None
    end.

(** [<[path := data]> files] has a regular file with [data] at [path]. *)
#[export] Instance FileSystem_insert : Insert string string FileSystem :=
  λ path data files,
    {| nodes := <[path := File data]> (nodes files);
       unwritable := unwritable files |}.

(** [delete path files] has nothing at [path]. *)
#[export] Instance FileSystem_delete : Delete string FileSystem :=
  λ path files,
    {| nodes := delete path (nodes files); unwritable := unwritable files |}.

Module Fs.

(** The node at [path]; the empty string names nothing. *)
Definition node (files : FileSystem) (path : string) : option Node :=
  match path with
  | EmptyString => None
  | _ => nodes files !! path
  end.

(** The contents of the regular file at [path], if there is one. *)
Definition stat (files : FileSystem) (path : string) : option string :=
  match path with
  | EmptyString => None
  | _ => files !! path
  end.

Definition isDirectory (files : FileSystem) (path : string) : bool :=
  match node files path with
  | Some Directory => true
  | _ => false
  end.

(** [fs.existsSync]: [false] for [undefined] and for a path that names
    nothing; [true] for a file and for a directory. *)
Definition existsSync (files : FileSystem) (path : option string) : bool :=
  match path with
  | Some p => bool_decide (is_Some (node files p))
  | None => false
  end.

(** [fs.readFileSync]: a path that is [undefined] is a type error, a
    directory and a missing file are system errors. *)
Definition readFileSync (files : FileSystem) (path : option string)
  : Result string :=
  match path with
  | None => Throw (TypeError "ERR_INVALID_ARG_TYPE")
  | Some p =>
      match node files p with
      | Some (File data) => Return data
      | Some Directory => Throw (SystemError "EISDIR" p)
      | None => Throw (SystemError "ENOENT" p)
      end
  end.

(** A file can be created or replaced at [path]. *)
Definition writable (files : FileSystem) (path : string) : bool :=
  match path with
  | EmptyString => false
  | _ => negb (isDirectory files path)
         && bool_decide (unwritable files !! path = None)
  end.

(** [fs.writeFileSync]: creates the file or replaces its contents, unless
    the path names a directory or the operating system refuses. *)
Definition writeFileSync (files : FileSystem) (path data : string)
  : Result FileSystem :=
  match path with
  | EmptyString => Throw (SystemError "ENOENT" path)
  | _ =>
      if isDirectory files path then Throw (SystemError "EISDIR" path)
      else
        match unwritable files !! path with
        | Some code => Throw (SystemError code path)
        | None => Return (<[path := data]> files)
        end
  end.


End Fs.

(** ** Server configuration from the environment *)

(** The object literal [resolveEnvironmentServerConfig] returns. *)
Record EnvServerConfig := {
  envHmr : HmrOptions;
  envHost : string;
  envHttps : HttpsOptions;
}.

Definition missingCertificates (env : gmap string string) : Exn :=
  Error ("Unable to find the certificate files specified in your environment. Ensure you have correctly configured VITE_DEV_SERVER_KEY: ["
           +:+ show (env !! "VITE_DEV_SERVER_KEY")
           +:+ "] and VITE_DEV_SERVER_CERT: ["
           +:+ show (env !! "VITE_DEV_SERVER_CERT") +:+ "].").

Definition missingHost (env : gmap string string) : Exn :=
  Error ("Unable to determine the host from the environment's APP_URL: ["
           +:+ show (env !! "APP_URL") +:+ "].").

Section WithUrl.

(** [new URL(s).host]; [None] when the constructor throws. *)
Variable url_host : string → option string.

(** [resolveHostFromEnv]: an [undefined] APP_URL is converted to the
    string ["undefined"] by the constructor. *)
Definition resolveHostFromEnv (env : gmap string string) : option string :=
  url_host (show (env !! "APP_URL")).

(** [resolveEnvironmentServerConfig] *)
Definition resolveEnvironmentServerConfig (files : FileSystem)
    (env : gmap string string) : Result (option EnvServerConfig) :=
  let keyPath := env !! "VITE_DEV_SERVER_KEY" in
  let certPath := env !! "VITE_DEV_SERVER_CERT" in
  if negb (truthy keyPath) && negb (truthy certPath) then Return None
  else if negb (Fs.existsSync files keyPath) || negb (Fs.existsSync files certPath)
  then Throw (missingCertificates env)
  else
    match resolveHostFromEnv env with
    | Some (String _ _ as h) =>
        k ← Fs.readFileSync files keyPath;
        c ← Fs.readFileSync files certPath;
        Return (Some
          {| envHmr :=
               {| hmrProtocol := None; hmrHost := Some h; hmrPort := None;
                  hmrClientPort := None; hmrPath := None; hmrTimeout := None;
                  hmrOverlay := None |};
             envHost := h;
             envHttps := {| key := Some k; cert := Some c |} |})
    | _ => Throw (missingHost env)
    end.

End WithUrl.

(** ** The [config] hook *)

(** [{ ...a, ...b }] on HMR options: a property of [b] wins. [None] is a
    property that is absent; an own property whose value is [undefined]
    is not represented. *)
Definition spreadHmr (a b : HmrOptions) : HmrOptions :=
  {| hmrProtocol := hmrProtocol b ∪ hmrProtocol a;
     hmrHost := hmrHost b ∪ hmrHost a;
     hmrPort := hmrPort b ∪ hmrPort a;
     hmrClientPort := hmrClientPort b ∪ hmrClientPort a;
     hmrPath := hmrPath b ∪ hmrPath a;
     hmrTimeout := hmrTimeout b ∪ hmrTimeout a;
     hmrOverlay := hmrOverlay b ∪ hmrOverlay a |}.

Definition placeholder : string := "__backend_vite_placeholder__".

(** The [hmr] property of the returned [server] object. *)
Definition mergeHmr (userHmr : option Hmr) (serverConfig : EnvServerConfig) : Hmr :=
  match userHmr with
  | Some (HmrBool false) => HmrBool false
  | Some (HmrBool true) => HmrObject (spreadHmr (envHmr serverConfig) noHmrOptions)
  | Some (HmrObject o) => HmrObject (spreadHmr (envHmr serverConfig) o)
  | None => HmrObject (spreadHmr (envHmr serverConfig) noHmrOptions)
  end.

(** The [server] object of the result: [host], [hmr] and [https] are
    spread in only when [serverConfig] is there. *)
Definition mergeServer (userConfig : UserConfig)
    (serverConfig : option EnvServerConfig) : ServerOptions :=
  let userOrigin := server userConfig ≫= origin in
  match serverConfig with
  | Some sc =>
      {| origin := Some (userOrigin ?? placeholder);
         host := Some ((server userConfig ≫= host) ?? HostName (envHost sc));
         hmr := Some (mergeHmr (server userConfig ≫= hmr) sc);
         https := Some ((server userConfig ≫= https) ?? envHttps sc) |}
  | None =>
      {| origin := Some (userOrigin ?? placeholder);
         host := None; hmr := None; https := None |}
  end.

(** The [resolve.alias] property of the result: a copy of the user's. *)
Definition mergeAlias (userConfig : UserConfig) : Alias :=
  match resolve userConfig ≫= alias with
  | Some (AliasArray es) => AliasArray es
  | Some (AliasObject es) => AliasObject es
  | None => AliasObject []
  end.

Definition asRollupInput (i : Input) : RollupInput :=
  match i with
  | InputPath p => RollupPath p
  | InputPaths ps => RollupPaths ps
  end.

Section Hooks.

Variable path_join : string → string → string.
Variable url_host : string → option string.

(** The value the [config] hook returns; [env] is what [loadEnv] gave
    for [mode] and [userConfig.envDir]. *)
Definition config (pluginConfig : RequiredPluginConfig)
    (files : FileSystem) (env : gmap string string)
    (userConfig : UserConfig) (command : Command) : Result UserConfig :=
  let assetUrl := env !! "ASSET_URL" ?? "" in
  let fromEnv : Result (option EnvServerConfig) :=
    match command with
    | Serve => resolveEnvironmentServerConfig url_host files env
    | Build => Return None
    end in
  serverConfig ← fromEnv;
  Return
    {| base :=
         Some (base userConfig ??
                 match command with
                 | Build => resolveBase pluginConfig assetUrl
                 | Serve => ""
                 end);
       publicDir := Some (publicDir userConfig ?? PublicDirFalse);
       build := Some
         {| manifest :=
              Some ((build userConfig ≫= manifest) ?? ManifestName "manifest.json");
            outDir :=
              Some ((build userConfig ≫= outDir)
                      ?? resolveOutDir path_join pluginConfig);
            rollupOptions := Some
              {| rollupInput :=
                   Some (((build userConfig ≫= rollupOptions) ≫= rollupInput)
                           ?? asRollupInput (resolveInput pluginConfig)) |};
            assetsInlineLimit :=
              Some ((build userConfig ≫= assetsInlineLimit) ?? 0%N) |};
       server := Some (mergeServer userConfig serverConfig);
       resolve := Some {| alias := Some (mergeAlias userConfig) |};
       envDir := None |}.

End Hooks.

(** ** The dev-server URL *)

Inductive Family :=
  | FamilyName (s : string)
  | FamilyNumber (n : N).

(** [AddressInfo] *)
Record AddressInfo := {
  address : string;
  family : Family;
  port : N;
}.

(** [isIpv6] *)
Definition isIpv6 (a : AddressInfo) : bool :=
  match family a with
  | FamilyName s => bool_decide (s = "IPv6")
  | FamilyNumber n => bool_decide (n = 6%N)
  end.

(** [typeof config.server.hmr === "object" ? config.server.hmr.f : null] *)
Definition hmrField {A} (f : HmrOptions → option A) (s : ServerOptions) : option A :=
  match hmr s with
  | Some (HmrObject o) => f o
  | _ => None
  end.

(** [resolveDevServerUrl] *)
Definition resolveDevServerUrl (a : AddressInfo) (config : ResolvedConfig) : string :=
  let srv := resolvedServer config in
  let configHmrProtocol := hmrField hmrProtocol srv in
  let clientProtocol :=
    if truthy configHmrProtocol
    then Some (if decide (configHmrProtocol = Some "wss") then "https" else "http")
    else None in
  let serverProtocol := match https srv with Some _ => "https" | None => "http" end in
  let protocol := clientProtocol ?? serverProtocol in
  let configHmrHost := hmrField hmrHost srv in
  let configHost :=
    match host srv with Some (HostName h) => Some h | _ => None end in
  let serverAddress :=
    if isIpv6 a then "[" +:+ address a +:+ "]" else address a in
  let host := configHmrHost ?? (configHost ?? serverAddress) in
  let configHmrClientPort := hmrField hmrClientPort srv in
  let port := configHmrClientPort ?? port a in
  protocol +:+ "://" +:+ host +:+ ":" +:+ pretty port.

(** ** [String.prototype.replace] with a global pattern that has no groups *)

Module Replace.

(** GetSubstitution: [$$], [$&], [$`] and [$'] are expanded; with no
    capture groups every other [$] stands for itself. *)
Fixpoint getSubstitution (matched before after replacement : string) : string :=
  match replacement with
  | EmptyString => EmptyString
  | String c rest =>
      if Ascii.eqb c "$" then
        match rest with
        | String d rest' =>
            if Ascii.eqb d "$" then
              String "$" (getSubstitution matched before after rest')
            else if Ascii.eqb d "&" then
              matched +:+ getSubstitution matched before after rest'
            else if Ascii.eqb d "`" then
              before +:+ getSubstitution matched before after rest'
            else if Ascii.eqb d "'" then
              after +:+ getSubstitution matched before after rest'
            else String c (getSubstitution matched before after rest)
        | EmptyString => String c EmptyString
        end
      else String c (getSubstitution matched before after rest)
  end.

(** Left-to-right scan for the literal [pat]. [skip] counts the code
    units of the current match still to be passed over, [before] holds
    the code units already passed, last first. *)
Fixpoint go (pat replacement : string) (skip : nat) (before s : string) : string :=
  match s with
  | EmptyString => EmptyString
  | String c s' =>
      match skip with
      | S k => go pat replacement k (String c before) s'
      | O =>
          if Str.isPrefix pat s then
            getSubstitution pat (String.rev before)
              (Str.drop (String.length pat) s) replacement
            +:+ go pat replacement (String.length pat - 1) (String c before) s'
          else String c (go pat replacement 0 (String c before) s')
      end
  end.

(** [s.replace(/pat/g, replacement)] for a literal, non-empty [pat]. *)
Definition replaceAll (pat replacement s : string) : string :=
  go pat replacement 0 EmptyString s.

(** The textual replacement the specification speaks of: every
    occurrence of [pat], found from left to right, gives way to [new]
    itself. *)
Fixpoint every_go (pat new : string) (skip : nat) (s : string) : string :=
  match s with
  | EmptyString => EmptyString
  | String c s' =>
      match skip with
      | S k => every_go pat new k s'
      | O =>
          if Str.isPrefix pat s
          then new +:+ every_go pat new (String.length pat - 1) s'
          else String c (every_go pat new 0 s')
      end
  end.

Definition replaceEvery (pat new s : string) : string := every_go pat new 0 s.

End Replace.

(** ** The plugin object and the process it lives in *)

(** The closure variables of [resolveBackendPlugin]. *)
Record Plugin := {
  pluginConfig : RequiredPluginConfig;
  viteDevServerUrl : option string;
  resolvedConfig : option ResolvedConfig;
  userConfig : option UserConfig;
}.

Definition resolveBackendPlugin (pluginConfig : RequiredPluginConfig) : Plugin :=
  {| pluginConfig := pluginConfig; viteDevServerUrl := None;
     resolvedConfig := None; userConfig := None |}.

(** What [server.httpServer.address()] can return. *)
Inductive Address :=
  | AddressUndefined
  | AddressNull
  | AddressPipe (name : string)
  | AddressObject (a : AddressInfo).

(** [typeof x === "object"]: also true of [null]. *)
Definition isAddressInfo (x : Address) : bool :=
  match x with
  | AddressNull | AddressObject _ => true
  | AddressUndefined | AddressPipe _ => false
  end.

(** [ViteDevServer], as far as the listening handler reads it. *)
Record ViteDevServer := {
  httpServerAddress : Address;
  serverConfig : ResolvedConfig;
}.

(** A listener attached with [process.on]. *)
Inductive Listener :=
  | Clean (hotFile : string)
  | ExitProcess.

#[export] Instance Listener_eq_dec : EqDecision Listener.
Proof. solve_decision. Defined.

(** The state shared by every plugin object of one process: the files,
    the module variable [exitHandlersBound] and the listeners attached to
    [process]. *)
Record Process := {
  files : FileSystem;
  exitHandlersBound : bool;
  listeners : list (string * Listener);
}.

Definition startOfProcess (files : FileSystem) : Process :=
  {| files := files; exitHandlersBound := false; listeners := [] |}.

Definition withFiles (w : Process) (files : FileSystem) : Process :=
  {| files := files; exitHandlersBound := exitHandlersBound w;
     listeners := listeners w |}.

Definition undefinedProperty (x : string) : Exn :=
  TypeError ("Cannot read properties of undefined (reading '" +:+ x +:+ "')").

Definition nullProperty (x : string) : Exn :=
  TypeError ("Cannot read properties of null (reading '" +:+ x +:+ "')").

Section Lifecycle.

Variable path_join : string → string → string.
Variable url_host : string → option string.

(** [loadEnv(mode, envDir, prefix)]: reads the environment files of
    [envDir] and throws for the mode "local". *)
Variable loadEnv :
  FileSystem → string → string → string → Result (gmap string string).

(** [process.cwd()] *)
Variable cwd : string.

(** [userConfig.envDir || process.cwd()] *)
Definition envDirOf (userConfig : UserConfig) : string :=
  if truthy (envDir userConfig) then show (envDir userConfig) else cwd.

(** [backend] *)
Definition backend (arg : ConfigArg) : Result Plugin :=
  pluginConfig ← resolvePluginConfig path_join arg;
  Return (resolveBackendPlugin pluginConfig).

(** The [config] hook as a step of the plugin: [userConfig] is assigned
    first, then [loadEnv] is called, and its result is what the returned
    value is computed from. *)
Definition configHook (p : Plugin) (files : FileSystem)
    (userConfig : UserConfig) (command : Command) (mode : string)
  : Plugin * Result UserConfig :=
  ({| pluginConfig := pluginConfig p; viteDevServerUrl := viteDevServerUrl p;
      resolvedConfig := resolvedConfig p; userConfig := Some userConfig |},
   env ← loadEnv files mode (envDirOf userConfig) "";
   config path_join url_host (pluginConfig p) files env userConfig command).

(** The [configResolved] hook. *)
Definition configResolved (p : Plugin) (config : ResolvedConfig) : Plugin :=
  {| pluginConfig := pluginConfig p; viteDevServerUrl := viteDevServerUrl p;
     resolvedConfig := Some config; userConfig := userConfig p |}.

(** The [transform] hook; [None] is the missing return value. An
    [undefined] replacement is converted to the string ["undefined"]. *)
Definition transform (p : Plugin) (code : string) : Result (option string) :=
  match resolvedConfig p with
  | None => Throw (undefinedProperty "command")
  | Some rc =>
      match command rc with
      | Serve =>
          let code := Replace.replaceAll placeholder (show (viteDevServerUrl p)) code in
          Return (Some (transformOnServe (pluginConfig p) code (viteDevServerUrl p)))
      | Build => Return None
      end
  end.

(** The value assigned to [viteDevServerUrl] in the listening handler.
    [resolveDevServerUrl] reads [address.family], which throws when the
    address is [null]. *)
Definition listeningUrl (uc : UserConfig) (address : Address)
    (devServer : ViteDevServer) : Result string :=
  if truthy (server uc ≫= origin) then Return (show (server uc ≫= origin))
  else
    match address with
    | AddressObject a => Return (resolveDevServerUrl a (serverConfig devServer))
    | _ => Throw (nullProperty "family")
    end.

Definition setViteDevServerUrl (p : Plugin) (url : string) : Plugin :=
  {| pluginConfig := pluginConfig p; viteDevServerUrl := Some url;
     resolvedConfig := resolvedConfig p; userConfig := userConfig p |}.

(** The handler [configureServer] registers with
    [server.httpServer.once("listening", ..)]: the plugin object after the
    handler has run, and the process, unless the handler threw. The
    closure variable is assigned before the file is written. *)
Definition onListening (p : Plugin) (devServer : ViteDevServer) (w : Process)
  : Plugin * Result Process :=
  let address := httpServerAddress devServer in
  if isAddressInfo address then
    match userConfig p with
    | None => (p, Throw (undefinedProperty "server"))
    | Some uc =>
        match listeningUrl uc address devServer with
        | Throw e => (p, Throw e)
        | Return url =>
            (setViteDevServerUrl p url,
             files' ← Fs.writeFileSync (files w) (hotFile (pluginConfig p)) url;
             Return (withFiles w files'))
        end
    end
  else (p, Return w).


(** The four [process.on] calls inside the guard. *)
Definition exitHandlers (hotFile : string) : list (string * Listener) :=
  [("exit", Clean hotFile);
   ("SIGINT", ExitProcess);
   ("SIGTERM", ExitProcess);
   ("SIGHUP", ExitProcess)].

(** [configureServer], as far as it acts on the process. *)
Definition configureServer (p : Plugin) (w : Process) : Result Process :=
  match resolvedConfig p with
  | None => Throw (undefinedProperty "envDir")
  | Some _ =>
      if exitHandlersBound w then Return w
      else
        Return
          {| files := files w;
             listeners := listeners w ++ exitHandlers (hotFile (pluginConfig p));
             exitHandlersBound := true |}
  end.

(** Calls of [configureServer] one after the other; a call that throws
    has changed nothing. *)
Definition configureServers (ps : list Plugin) (w : Process) : Process :=
  foldl (λ w p, match configureServer p w with Return w' => w' | Throw _ => w end)
    w ps.




End Lifecycle.

(** A table of [new URL(s).host] at the inputs the examples use. *)
Definition sampleUrlHost (s : string) : option string :=
  if decide (s = "https://app.test") then Some "app.test"
  else if decide (s = "file:///srv/app") then Some ""
  else None.

(** ** Sample data for the examples *)

Definition sampleFiles : FileSystem :=
  <["/etc/ssl/app.key" := "KEY"]> (<["/etc/ssl/app.crt" := "CERT"]> ∅).

Definition sampleEnv (keyPath certPath appUrl : option string) : gmap string string :=
  let put (k : string) (v : option string) (m : gmap string string) :=
    match v with Some x => <[k := x]> m | None => m end in
  put "VITE_DEV_SERVER_KEY" keyPath
    (put "VITE_DEV_SERVER_CERT" certPath (put "APP_URL" appUrl ∅)).

(** A [loadEnv] for the examples: the variables of [env], and the error
    of the mode "local". *)
Definition sampleLoadEnv (env : gmap string string)
    (files : FileSystem) (mode dir prefix : string) : Result (gmap string string) :=
  if decide (mode = "local")
  then Throw (Error "'local' cannot be used as a mode name")
  else Return env.

(** Every property set in [o] has the same value in [o']. *)
Definition carriesHmr (o o' : HmrOptions) : Prop :=
  (∀ v, hmrProtocol o = Some v → hmrProtocol o' = Some v)
  ∧ (∀ v, hmrHost o = Some v → hmrHost o' = Some v)
  ∧ (∀ v, hmrPort o = Some v → hmrPort o' = Some v)
  ∧ (∀ v, hmrClientPort o = Some v → hmrClientPort o' = Some v)
  ∧ (∀ v, hmrPath o = Some v → hmrPath o' = Some v)
  ∧ (∀ v, hmrTimeout o = Some v → hmrTimeout o' = Some v)
  ∧ (∀ v, hmrOverlay o = Some v → hmrOverlay o' = Some v).

Definition samplePluginConfig : RequiredPluginConfig :=
  {| name := "backend"; input := InputPath "resources/js/app.js";
     publicDirectory := "public"; buildDirectory := "build";
     hotFile := "public/hot"; detectTls := TlsNull;
     transformOnServe := λ code _, code |}.

Definition sampleUserConfig (b : option string) (s : option ServerOptions) : UserConfig :=
  {| base := b; publicDir := None; build := None; server := s;
     resolve := None; envDir := None |}.

Definition sampleResolvedConfig (cmd : Command) : ResolvedConfig :=
  {| command := cmd; mode := "development"; resolvedEnvDir := None;
     resolvedServer := {| origin := None; host := None; hmr := None; https := None |} |}.

(** A plugin object after [config] and [configResolved] have run. *)
Definition samplePlugin (cmd : Command) (userOrigin url : option string) : Plugin :=
  {| pluginConfig := samplePluginConfig;
     viteDevServerUrl := url;
     resolvedConfig := Some (sampleResolvedConfig cmd);
     userConfig :=
       Some (sampleUserConfig None
               (Some {| origin := userOrigin; host := None; hmr := None;
                        https := None |})) |}.

Definition sampleServer (a : Address) : ViteDevServer :=
  {| httpServerAddress := a; serverConfig := sampleResolvedConfig Serve |}.

(** The [hmr] object of an environment server configuration. *)
Definition envHmrOf (h : string) : HmrOptions :=
  {| hmrProtocol := None; hmrHost := Some h; hmrPort := None;
     hmrClientPort := None; hmrPath := None; hmrTimeout := None;
     hmrOverlay := None |}.

(** [s] holds one of the replacement patterns [$$], [$&], [$`] and [$']. *)
Fixpoint hasDollarPattern (s : string) : bool :=
  match s with
  | EmptyString => false
  | String c rest =>
      (Ascii.eqb c "$"
       && match rest with
          | String d _ =>
              Ascii.eqb d "$" || Ascii.eqb d "&" || Ascii.eqb d "`" || Ascii.eqb d "'"
          | EmptyString => false
          end)
      || hasDollarPattern rest
  end.

(** ** The development index page *)

(** [pat] occurs somewhere in [s]. *)
Fixpoint occursIn (pat s : string) : bool :=
  match s with
  | EmptyString => Str.isPrefix pat EmptyString
  | String _ s' => Str.isPrefix pat s || occursIn pat s'
  end.

(** [http.ServerResponse], as far as the middleware writes it: the status
    code and the body passed to [end], if [end] has been called. *)
Record Response := {
  statusCode : N;
  ended : option string;
}.

(** [loadEnv(mode, envDir, "APP_URL").APP_URL ?? "undefined"] *)
Definition appUrlOf (env : gmap string string) : string :=
  env !! "APP_URL" ?? "undefined".

Definition appUrlToken : string := "{{ APP_URL }}".

Section Middleware.

Variable path_join : string → string → string.

(** The middleware [configureServer] installs. [dirname] is the value of
    [dirname()], [url] is [req.url]. The result is the response after the
    middleware has run and [Return tt] when [next()] was reached; [end] on
    a response that has ended already leaves its body as it is. *)
Definition indexMiddleware (files : FileSystem) (dirname appUrl : string)
    (url : option string) (res : Response) : Response * Result unit :=
  if decide (url = Some "/index.html") then
    let res404 := {| statusCode := 404; ended := ended res |} in
    match Fs.readFileSync files (Some (path_join dirname "dev-server-index.html")) with
    | Throw e => (res404, Throw e)
    | Return page =>
        ({| statusCode := 404;
            ended := ended res ∪ Some (Replace.replaceAll appUrlToken appUrl page) |},
         Return tt)
    end
  else (res, Return tt).

End Middleware.

(** * Properties *)

(** ** String primitives *)

Section StrFacts.

Import Str.
Variable p : ascii → bool.

Lemma dropWhile_length s : (String.length (dropWhile p s) <= String.length s)%nat.
Proof.
  induction s as [|c s IH]; simpl; [lia|]. destruct (p c); simpl; lia.
Qed.

Lemma dropWhile_fixed s :
  dropWhile p s = s ↔ s = "" ∨ ∃ c s', s = String c s' ∧ p c = false.
Proof.
  destruct s as [|c s']; simpl; [by split; [left|]|].
  destruct (p c) eqn:Hc.
  - split.
    + intros H. exfalso.
      pose proof (dropWhile_length s') as Hlen.
      rewrite H in Hlen. simpl in Hlen. lia.
    + intros [?|(d & t & [= -> ->] & ?)]; congruence.
  - split; [|done]. intros _. right. by exists c, s'.
Qed.

Lemma dropWhile_idem s : dropWhile p (dropWhile p s) = dropWhile p s.
Proof.
  induction s as [|c s IH]; simpl; [done|].
  destruct (p c) eqn:Hc; [done|]. simpl. by rewrite Hc.
Qed.

Lemma dropWhileEnd_idem s : dropWhileEnd p (dropWhileEnd p s) = dropWhileEnd p s.
Proof.
  induction s as [|c s IH]; simpl; [done|].
  destruct (dropWhileEnd p s) as [|d r] eqn:Hr.
  - destruct (p c) eqn:Hc; simpl; [done|]. by rewrite Hc.
  - simpl in *. by rewrite IH.
Qed.

Lemma dropWhileEnd_length s : (String.length (dropWhileEnd p s) <= String.length s)%nat.
Proof.
  induction s as [|c s IH]; simpl; [lia|].
  destruct (dropWhileEnd p s); [destruct (p c)|]; simpl in *; lia.
Qed.

Lemma dropWhile_same_length s :
  String.length (dropWhile p s) = String.length s → dropWhile p s = s.
Proof.
  destruct s as [|c s]; simpl; [done|].
  destruct (p c); [|done].
  pose proof (dropWhile_length s). lia.
Qed.

Lemma dropWhileEnd_same_length s :
  String.length (dropWhileEnd p s) = String.length s → dropWhileEnd p s = s.
Proof.
  induction s as [|c s IH]; simpl; [done|].
  pose proof (dropWhileEnd_length s) as Hle.
  destruct (dropWhileEnd p s) as [|d r] eqn:Hr.
  - destruct (p c); simpl in *; intros; [lia|].
    destruct s; simpl in *; [done|lia].
  - simpl in *. intros Hlen. rewrite IH; [done|lia].
Qed.

(** Stripping at the end keeps a head that stripping at the front keeps. *)
Lemma dropWhile_dropWhileEnd (q : ascii → bool) s :
  dropWhile p s = s → dropWhile p (dropWhileEnd q s) = dropWhileEnd q s.
Proof.
  intros H. apply dropWhile_fixed in H as [->|(c & s' & -> & Hc)]; [done|].
  apply dropWhile_fixed. simpl.
  destruct (dropWhileEnd q s'); [destruct (q c)|]; eauto.
Qed.

End StrFacts.

Lemma trim_length s : (String.length (Str.trim s) <= String.length s)%nat.
Proof.
  unfold Str.trim.
  pose proof (dropWhileEnd_length Str.isWhiteSpace (Str.dropWhile Str.isWhiteSpace s)).
  pose proof (dropWhile_length Str.isWhiteSpace s). lia.
Qed.

Lemma trim_same_length s : String.length (Str.trim s) = String.length s → Str.trim s = s.
Proof.
  unfold Str.trim. intros H.
  pose proof (dropWhileEnd_length Str.isWhiteSpace (Str.dropWhile Str.isWhiteSpace s)) as H1.
  pose proof (dropWhile_length Str.isWhiteSpace s) as H2.
  assert (Hd : Str.dropWhile Str.isWhiteSpace s = s)
    by (apply dropWhile_same_length; lia).
  rewrite Hd in *. by apply dropWhileEnd_same_length.
Qed.

(** A normalised public directory that trimming leaves alone is a fixed
    point of the normalisation, and only such a one is. *)
Lemma normalizePublicDirectory_fixed s :
  normalizePublicDirectory (normalizePublicDirectory s) = normalizePublicDirectory s
  ↔ Str.trim (normalizePublicDirectory s) = normalizePublicDirectory s.
Proof.
  unfold normalizePublicDirectory, Str.stripLeadingSlashes.
  set (d := Str.dropWhile Str.isSlash (Str.trim s)). split.
  - intros H. apply trim_same_length.
    pose proof (trim_length d).
    pose proof (dropWhile_length Str.isSlash (Str.trim d)).
    rewrite H in *. lia.
  - intros ->. apply dropWhile_idem.
Qed.

Lemma normalizeBuildDirectory_fixed s :
  normalizeBuildDirectory (normalizeBuildDirectory s) = normalizeBuildDirectory s
  ↔ Str.trim (normalizeBuildDirectory s) = normalizeBuildDirectory s.
Proof.
  unfold normalizeBuildDirectory, Str.stripLeadingSlashes, Str.stripTrailingSlashes.
  set (d := Str.dropWhileEnd Str.isSlash (Str.dropWhile Str.isSlash (Str.trim s))).
  split.
  - intros H. apply trim_same_length.
    pose proof (trim_length d).
    pose proof (dropWhile_length Str.isSlash (Str.trim d)).
    pose proof (dropWhileEnd_length Str.isSlash (Str.dropWhile Str.isSlash (Str.trim d))).
    rewrite H in *. lia.
  - intros ->. subst d.
    rewrite dropWhile_dropWhileEnd by apply dropWhile_idem.
    apply dropWhileEnd_idem.
Qed.

(** ** The configuration normaliser *)

Section Normalizer.

Variable path_join : string → string → string.

Lemma checkDirectory_Return normalize e d d' :
  checkDirectory normalize e d = Return d' →
  d' = normalize <$> d ∧ d' ≠ Some "".
Proof.
  unfold checkDirectory. destruct d as [s|]; simpl.
  - case_decide; [done|]. intros [= <-]. split; congruence.
  - by intros [= <-].
Qed.

(** What a successful normalisation tells about its result. *)
Lemma resolveObject_Return c r :
  resolveObject path_join c = Return r →
  (∃ s, publicDirectory r = normalizePublicDirectory s) ∧ publicDirectory r ≠ ""
  ∧ (∃ s, buildDirectory r = normalizeBuildDirectory s) ∧ buildDirectory r ≠ "".
Proof.
  unfold resolveObject. destruct (cInput c); [|done].
  destruct (checkDirectory _ _ (cPublicDirectory c)) as [pd|] eqn:Hpd; [|done].
  destruct (checkDirectory _ _ (cBuildDirectory c)) as [bd|] eqn:Hbd; [|done].
  simpl. intros [= <-]. simpl.
  apply checkDirectory_Return in Hpd as [-> Hpd], Hbd as [-> Hbd].
  destruct (cPublicDirectory c) as [s|], (cBuildDirectory c) as [t|]; simpl in *;
    repeat split; try congruence; try done;
    first [by eexists | by exists "public" | by exists "build"].
Qed.

Lemma resolvePluginConfig_object arg r :
  resolvePluginConfig path_join arg = Return r →
  ∃ c, resolveObject path_join c = Return r.
Proof. destruct arg; simpl; [done|eauto..]. Qed.

(** Normalising a resolved configuration once more. *)
Lemma resolveObject_again r :
  publicDirectory r ≠ "" → buildDirectory r ≠ "" →
  (resolveObject path_join (asPluginConfig r) = Return r
   ↔ normalizePublicDirectory (publicDirectory r) = publicDirectory r
     ∧ normalizeBuildDirectory (buildDirectory r) = buildDirectory r).
Proof.
  intros Hp Hb. unfold resolveObject, checkDirectory. destruct r; simpl in *.
  repeat case_decide; simpl; split; try done; try (intros [? ?]; congruence).
  by intros [= ? ?].
Qed.

End Normalizer.

Example posix_join_samples :
  Posix.join "public/" "hot" = "public/hot"
  ∧ Posix.join "public" "build" = "public/build"
  ∧ Posix.join "a/../b//c/." "hot" = "b/c/hot"
  ∧ Posix.join "/srv/app/public" "../hot" = "/srv/app/hot".
Proof. by repeat split. Qed.

Example trim_samples :
  Str.trim "  /public/ " = "/public/" ∧ Str.trim "a b" = "a b" ∧ Str.trim "   " = "".
Proof. by repeat split. Qed.

(** The normaliser on the specification's sample inputs. *)
Example normalize_sample_directories :
  normalizePublicDirectory "/public/" = "public/"
  ∧ normalizeBuildDirectory "/build/" = "build"
  ∧ normalizePublicDirectory " //  " = ""
  ∧ normalizeBuildDirectory "///" = "".
Proof. by repeat split. Qed.

(** C3, counterexample: with publicDirectory "/public/" the normaliser
    returns a configuration whose publicDirectory is "public/", not
    "public": only the leading slashes are removed. *)
Lemma publicDirectory_keeps_trailing_slash :
  ∃ r,
    resolvePluginConfig Posix.join
      (ArgObject
         {| cName := None; cInput := Some (InputPath "resources/js/app.js");
            cPublicDirectory := Some "/public/"; cBuildDirectory := Some "/build/";
            cHotFile := None; cDetectTls := None; cTransformOnServe := None |})
    = Return r
    ∧ publicDirectory r = "public/"
    ∧ publicDirectory r ≠ "public"
    ∧ hotFile r = "public/hot".
Proof. eexists. by repeat split. Qed.

(** C3, amended: for a configuration object with an [input], publicDirectory
    "/public/" is normalised to "public/" (leading slashes only) and
    buildDirectory "/build/" to "build"; a publicDirectory that the
    normalisation reduces to the empty string makes [resolvePluginConfig]
    throw the publicDirectory error, and a buildDirectory that reduces to
    the empty string makes it throw as well, so no configuration is
    produced. *)
Theorem resolvePluginConfig_directories
    (path_join : string → string → string) (c : PluginConfig) (i : Input) :
  cInput c = Some i →
  (cPublicDirectory c = Some "/public/" → cBuildDirectory c = Some "/build/" →
   ∃ r, resolvePluginConfig path_join (ArgObject c) = Return r
        ∧ publicDirectory r = "public/" ∧ buildDirectory r = "build")
  ∧ (∀ s, cPublicDirectory c = Some s → normalizePublicDirectory s = "" →
          resolvePluginConfig path_join (ArgObject c) = Throw emptyPublicDirectory)
  ∧ (∀ s, cBuildDirectory c = Some s → normalizeBuildDirectory s = "" →
          threw (resolvePluginConfig path_join (ArgObject c))).
Proof.
  intros Hi. simpl. unfold resolveObject. rewrite Hi. repeat split.
  - intros -> ->. simpl. eexists. by repeat split.
  - intros s -> Hs. simpl. rewrite Hs. done.
  - intros s -> Hs.
    destruct (checkDirectory _ _ (cPublicDirectory c)) as [pd|e]; simpl.
    + rewrite Hs. simpl. by eexists.
    + by eexists.
Qed.

Lemma resolvePluginConfig_directories_witness :
  let c s t :=
    {| cName := None; cInput := Some (InputPaths ["a.js"; "b.css"]);
       cPublicDirectory := Some s; cBuildDirectory := Some t;
       cHotFile := None; cDetectTls := None; cTransformOnServe := None |} in
  (∃ r, resolvePluginConfig Posix.join (ArgObject (c "/public/" "/build/")) = Return r
        ∧ publicDirectory r = "public/" ∧ buildDirectory r = "build")
  ∧ resolvePluginConfig Posix.join (ArgObject (c " // " "build"))
    = Throw emptyPublicDirectory
  ∧ threw (resolvePluginConfig Posix.join (ArgObject (c "public" "/"))).
Proof.
  intros c. split; [|split].
  - by apply (resolvePluginConfig_directories Posix.join (c "/public/" "/build/")
                (InputPaths ["a.js"; "b.css"]) eq_refl).
  - destruct (resolvePluginConfig_directories Posix.join (c " // " "build")
                (InputPaths ["a.js"; "b.css"]) eq_refl) as (_ & H & _).
    by apply (H " // ").
  - destruct (resolvePluginConfig_directories Posix.join (c "public" "/")
                (InputPaths ["a.js"; "b.css"]) eq_refl) as (_ & _ & H).
    by apply (H "/").
Defined.

(** C7, counterexample: publicDirectory "/ /" is accepted and normalised to
    " /"; normalising the configuration so produced throws, because " /"
    is trimmed to "/" and then reduced to the empty string. *)
Lemma normalisation_not_idempotent :
  ∃ r,
    resolvePluginConfig Posix.join
      (ArgObject
         {| cName := None; cInput := Some (InputPath "app.js");
            cPublicDirectory := Some "/ /"; cBuildDirectory := None;
            cHotFile := None; cDetectTls := None; cTransformOnServe := None |})
    = Return r
    ∧ publicDirectory r = " /"
    ∧ resolvePluginConfig Posix.join (ArgObject (asPluginConfig r))
      = Throw emptyPublicDirectory
    ∧ resolvePluginConfig Posix.join (ArgObject (asPluginConfig r)) ≠ Return r.
Proof. eexists. by repeat split. Qed.

(** A second pass can also succeed with another result: "/ public" gives
    " public", which the second pass trims to "public". *)
Example normalisation_second_pass_differs :
  normalizePublicDirectory "/ public" = " public"
  ∧ normalizePublicDirectory " public" = "public".
Proof. done. Qed.

(** C7, amended: when [resolvePluginConfig] produces a configuration from
    a path, a list of paths or an object, normalising that configuration
    again yields the same configuration exactly when its publicDirectory
    and buildDirectory have no white space at either end (as is the case
    for the defaults and for user values without white space). *)
Theorem resolvePluginConfig_idempotent
    (path_join : string → string → string) (arg : ConfigArg)
    (r : RequiredPluginConfig) :
  resolvePluginConfig path_join arg = Return r →
  (resolvePluginConfig path_join (ArgObject (asPluginConfig r)) = Return r
   ↔ Str.trim (publicDirectory r) = publicDirectory r
     ∧ Str.trim (buildDirectory r) = buildDirectory r).
Proof.
  intros Hr. apply resolvePluginConfig_object in Hr as [c Hc].
  apply resolveObject_Return in Hc as ([s Hs] & Hp & [t Ht] & Hb).
  simpl. rewrite resolveObject_again by done.
  rewrite Hs, Ht.
  by rewrite normalizePublicDirectory_fixed, normalizeBuildDirectory_fixed.
Qed.

Lemma resolvePluginConfig_idempotent_witness :
  ∃ r,
    resolvePluginConfig Posix.join (ArgArray ["a.js"; "b.css"]) = Return r
    ∧ resolvePluginConfig Posix.join (ArgObject (asPluginConfig r)) = Return r.
Proof.
  eexists. split; [reflexivity|].
  by apply (resolvePluginConfig_idempotent Posix.join (ArgArray ["a.js"; "b.css"])).
Defined.

(** ** The dev-server URL *)

Lemma isIpv6_spec a :
  isIpv6 a = true ↔ family a = FamilyName "IPv6" ∨ family a = FamilyNumber 6.
Proof.
  unfold isIpv6. destruct (family a) as [s|n]; rewrite bool_decide_eq_true.
  - split; [intros ->; by left|]. by intros [[= ->]|[=]].
  - split; [intros ->; by right|]. by intros [[=]|[= ->]].
Qed.




(** The specification's sample addresses. *)
Example resolveDevServerUrl_ipv4 :
  resolveDevServerUrl
    {| address := "127.0.0.1"; family := FamilyName "IPv4"; port := 5173 |}
    {| command := Serve; mode := "development"; resolvedEnvDir := None;
       resolvedServer := {| origin := None; host := None; hmr := None; https := None |} |}
  = "http://127.0.0.1:5173".
Proof. reflexivity. Qed.

Example resolveDevServerUrl_hmr_overrides :
  resolveDevServerUrl
    {| address := "::"; family := FamilyNumber 6; port := 5173 |}
    {| command := Serve; mode := "development"; resolvedEnvDir := None;
       resolvedServer :=
         {| origin := None; host := Some (HostName "0.0.0.0");
            hmr := Some (HmrObject
                           {| hmrProtocol := Some "wss"; hmrHost := Some "example.test";
                              hmrPort := None; hmrClientPort := Some 8080%N;
                              hmrPath := None; hmrTimeout := None;
                              hmrOverlay := None |});
            https := None |} |}
  = "https://example.test:8080".
Proof. reflexivity. Qed.

(** An empty HMR protocol is no protocol: the TLS setting decides. *)
Example resolveDevServerUrl_empty_protocol :
  resolveDevServerUrl
    {| address := "127.0.0.1"; family := FamilyName "IPv4"; port := 5173 |}
    {| command := Serve; mode := "development"; resolvedEnvDir := None;
       resolvedServer :=
         {| origin := None; host := None;
            hmr := Some (HmrObject
                           {| hmrProtocol := Some ""; hmrHost := None;
                              hmrPort := None; hmrClientPort := None;
                              hmrPath := None; hmrTimeout := None;
                              hmrOverlay := None |});
            https := Some {| key := None; cert := None |} |} |}
  = "https://127.0.0.1:5173".
Proof. reflexivity. Qed.

(** ** Server configuration from the environment *)

Lemma existsSync_truthy files path :
  Fs.existsSync files path = true → truthy path = true.
Proof.
  by destruct path as [[|c s]|].
Qed.

Lemma stat_node files path data :
  Fs.stat files path = Some data ↔ Fs.node files path = Some (File data).
Proof.
  destruct path as [|c s]; [done|]. unfold Fs.stat, Fs.node, lookup at 1.
  unfold FileSystem_lookup.
  destruct (nodes files !! String c s) as [[d|]|]; split; intros [=]; by subst.
Qed.

Lemma existsSync_stat files path data :
  Fs.stat files path = Some data → Fs.existsSync files (Some path) = true.
Proof.
  intros H. apply stat_node in H. simpl. rewrite H.
  apply bool_decide_eq_true. by eexists.
Qed.

Lemma readFileSync_stat files path data :
  Fs.stat files path = Some data →
  Fs.readFileSync files (Some path) = Return data.
Proof. intros H. apply stat_node in H. simpl. by rewrite H. Qed.

(** C4: a variable counts as set when its value is a non-empty string.
    With neither path variable set the resolver returns no override; with
    exactly one set, or with a path at which there is no file, it throws;
    with both files there and no host to be had from APP_URL it throws;
    otherwise it returns the host, the same host as [hmr.host], and the
    contents of the two files as [https.key] and [https.cert]. *)
Theorem resolveEnvironmentServerConfig_cases
    (url_host : string → option string) (files : FileSystem)
    (env : gmap string string) :
  let keyPath := env !! "VITE_DEV_SERVER_KEY" in
  let certPath := env !! "VITE_DEV_SERVER_CERT" in
  let appUrl := show (env !! "APP_URL") in
  let result := resolveEnvironmentServerConfig url_host files env in
  (truthy keyPath = false → truthy certPath = false → result = Return None)
  ∧ (truthy keyPath ≠ truthy certPath → result = Throw (missingCertificates env))
  ∧ (truthy keyPath = true ∨ truthy certPath = true →
     Fs.existsSync files keyPath = false ∨ Fs.existsSync files certPath = false →
     result = Throw (missingCertificates env))
  ∧ (Fs.existsSync files keyPath = true → Fs.existsSync files certPath = true →
     url_host appUrl = None ∨ url_host appUrl = Some "" →
     result = Throw (missingHost env))
  ∧ (∀ kp cp k c h,
       keyPath = Some kp → certPath = Some cp →
       Fs.stat files kp = Some k → Fs.stat files cp = Some c →
       url_host appUrl = Some h → h ≠ "" →
       ∃ sc, result = Return (Some sc)
             ∧ envHost sc = h
             ∧ hmrHost (envHmr sc) = Some h
             ∧ envHttps sc = {| key := Some k; cert := Some c |}).
Proof.
  intros keyPath certPath appUrl result.
  subst result. unfold resolveEnvironmentServerConfig, resolveHostFromEnv.
  fold keyPath certPath appUrl.
  assert (Hmissing : ∀ path, truthy path = false → Fs.existsSync files path = false).
  { intros path Hp. destruct (Fs.existsSync files path) eqn:He; [|done].
    apply existsSync_truthy in He. congruence. }
  split; [by intros -> ->|].
  split.
  { intros Hne. destruct (truthy keyPath) eqn:Hk, (truthy certPath) eqn:Hc;
      try done; simpl.
    - by rewrite (Hmissing certPath), orb_true_r.
    - by rewrite (Hmissing keyPath). }
  split.
  { intros Hset Hnone.
    replace (negb (truthy keyPath) && negb (truthy certPath)) with false
      by (by destruct Hset as [-> | ->]; rewrite ?andb_false_r).
    by destruct Hnone as [-> | ->]; rewrite ?orb_true_r. }
  split.
  { intros Hk Hc Hhost. rewrite (existsSync_truthy _ _ Hk), Hk, Hc. simpl.
    by destruct Hhost as [-> | ->]. }
  intros kp cp k c h Hkp Hcp Hk Hc Hh Hne.
  assert (Fs.existsSync files keyPath = true) as Hek
    by (rewrite Hkp; by eapply existsSync_stat).
  assert (Fs.existsSync files certPath = true) as Hec
    by (rewrite Hcp; by eapply existsSync_stat).
  rewrite (existsSync_truthy _ _ Hek), Hek, Hec, Hh. simpl.
  destruct h as [|x h]; [done|].
  rewrite Hkp, Hcp, (readFileSync_stat _ _ _ Hk), (readFileSync_stat _ _ _ Hc).
  simpl. eexists. by repeat split.
Qed.

Lemma resolveEnvironmentServerConfig_cases_witness :
  let run k c u := resolveEnvironmentServerConfig sampleUrlHost sampleFiles (sampleEnv k c u) in
  run None (Some "") (Some "https://app.test") = Return None
  ∧ threw (run (Some "/etc/ssl/app.key") None (Some "https://app.test"))
  ∧ threw (run None (Some "/etc/ssl/app.crt") (Some "https://app.test"))
  ∧ threw (run (Some "/etc/ssl/app.key") (Some "/nowhere") (Some "https://app.test"))
  ∧ threw (run (Some "/etc/ssl/app.key") (Some "/etc/ssl/app.crt") None)
  ∧ threw (run (Some "/etc/ssl/app.key") (Some "/etc/ssl/app.crt") (Some "file:///srv/app"))
  ∧ ∃ sc, run (Some "/etc/ssl/app.key") (Some "/etc/ssl/app.crt") (Some "https://app.test")
          = Return (Some sc)
          ∧ envHost sc = "app.test"
          ∧ hmrHost (envHmr sc) = Some "app.test"
          ∧ envHttps sc = {| key := Some "KEY"; cert := Some "CERT" |}.
Proof.
  intros run. subst run.
  pose proof (resolveEnvironmentServerConfig_cases sampleUrlHost sampleFiles) as T.
  split; [|split; [|split; [|split; [|split; [|split]]]]].
  - destruct (T (sampleEnv None (Some "") (Some "https://app.test"))) as (H & _).
    by apply H.
  - destruct (T (sampleEnv (Some "/etc/ssl/app.key") None (Some "https://app.test")))
      as (_ & H & _).
    eexists. by apply H.
  - destruct (T (sampleEnv None (Some "/etc/ssl/app.crt") (Some "https://app.test")))
      as (_ & H & _).
    eexists. by apply H.
  - destruct (T (sampleEnv (Some "/etc/ssl/app.key") (Some "/nowhere")
                   (Some "https://app.test"))) as (_ & _ & H & _).
    eexists. apply H; [by left|by right].
  - destruct (T (sampleEnv (Some "/etc/ssl/app.key") (Some "/etc/ssl/app.crt") None))
      as (_ & _ & _ & H & _).
    eexists. apply H; [done|done|by left].
  - destruct (T (sampleEnv (Some "/etc/ssl/app.key") (Some "/etc/ssl/app.crt")
                   (Some "file:///srv/app"))) as (_ & _ & _ & H & _).
    eexists. apply H; [done|done|by right].
  - destruct (T (sampleEnv (Some "/etc/ssl/app.key") (Some "/etc/ssl/app.crt")
                   (Some "https://app.test"))) as (_ & _ & _ & _ & H).
    by apply (H "/etc/ssl/app.key" "/etc/ssl/app.crt" "KEY" "CERT" "app.test").
Defined.

(** ** The [config] hook *)

Lemma spreadHmr_carries a o : carriesHmr o (spreadHmr a o).
Proof.
  unfold carriesHmr, spreadHmr; simpl.
  repeat split; intros v Hv; rewrite Hv;
    match goal with |- Some _ ∪ ?x = _ => by destruct x end.
Qed.

Lemma spreadHmr_empty a : spreadHmr a noHmrOptions = a.
Proof.
  destruct a as [a1 a2 a3 a4 a5 a6 a7]. unfold spreadHmr; simpl.
  by destruct a1, a2, a3, a4, a5, a6, a7.
Qed.

(** C5, counterexample: in serve mode without the TLS variables the user's
    [server.host], [server.https] and [server.hmr] are not in the object
    the hook returns; its [server] has an [origin] and nothing else. *)
Lemma config_omits_server_host :
  let userServer :=
    {| origin := None; host := Some (HostName "0.0.0.0");
       hmr := Some (HmrObject
                      {| hmrProtocol := None; hmrHost := Some "hmr.test";
                         hmrPort := None; hmrClientPort := None; hmrPath := None;
                         hmrTimeout := None; hmrOverlay := None |});
       https := Some {| key := Some "KEY"; cert := Some "CERT" |} |} in
  ∃ r s,
    config Posix.join sampleUrlHost samplePluginConfig ∅ ∅
      (sampleUserConfig None (Some userServer)) Serve = Return r
    ∧ server r = Some s
    ∧ host userServer = Some (HostName "0.0.0.0")
    ∧ host s = None ∧ hmr s = None ∧ https s = None.
Proof. intros userServer. do 2 eexists. by repeat split. Qed.

(** C5, amended: whenever the hook returns (build mode, or serve mode with
    the environment resolved), a value the user set for base, publicDir,
    build.manifest, build.outDir, build.rollupOptions.input,
    build.assetsInlineLimit or server.origin is in the returned
    configuration unchanged. When an environment server configuration is
    present the same holds of server.host, server.https, an hmr of false
    and each property of an hmr object; when there is none, the returned
    [server] has no host, hmr or https at all, so no computed value stands
    in for the user's. *)
Theorem config_keeps_user_values
    (path_join : string → string → string) (url_host : string → option string)
    (pluginConfig : RequiredPluginConfig) (files : FileSystem)
    (env : gmap string string)
    (uc : UserConfig) (cmd : Command) (serverConfig : option EnvServerConfig) :
  (cmd = Build ∧ serverConfig = None
   ∨ cmd = Serve
     ∧ resolveEnvironmentServerConfig url_host files env = Return serverConfig) →
  ∃ r b s,
    config path_join url_host pluginConfig files env uc cmd = Return r
    ∧ build r = Some b ∧ server r = Some s
    ∧ (∀ v, base uc = Some v → base r = Some v)
    ∧ (∀ v, publicDir uc = Some v → publicDir r = Some v)
    ∧ (∀ v, build uc ≫= manifest = Some v → manifest b = Some v)
    ∧ (∀ v, build uc ≫= outDir = Some v → outDir b = Some v)
    ∧ (∀ v, (build uc ≫= rollupOptions) ≫= rollupInput = Some v →
            rollupOptions b ≫= rollupInput = Some v)
    ∧ (∀ v, build uc ≫= assetsInlineLimit = Some v → assetsInlineLimit b = Some v)
    ∧ (∀ v, server uc ≫= origin = Some v → origin s = Some v)
    ∧ (is_Some serverConfig →
       (∀ v, server uc ≫= host = Some v → host s = Some v)
       ∧ (∀ v, server uc ≫= https = Some v → https s = Some v)
       ∧ (server uc ≫= hmr = Some (HmrBool false) → hmr s = Some (HmrBool false))
       ∧ (∀ o, server uc ≫= hmr = Some (HmrObject o) →
               ∃ o', hmr s = Some (HmrObject o') ∧ carriesHmr o o'))
    ∧ (serverConfig = None → host s = None ∧ hmr s = None ∧ https s = None).
Proof.
  intros Hcmd. unfold config.
  assert (match cmd with
          | Serve => resolveEnvironmentServerConfig url_host files env
          | Build => Return None
          end = Return serverConfig) as ->
    by (by destruct Hcmd as [[-> ->]|[-> ->]]).
  simpl. do 3 eexists. split; [reflexivity|]. simpl.
  split; [reflexivity|]. split; [reflexivity|].
  split; [by intros v ->|]. split; [by intros v ->|].
  split; [by intros v ->|]. split; [by intros v ->|].
  split; [by intros v ->|]. split; [by intros v ->|].
  split; [by unfold mergeServer; destruct serverConfig; intros v ->|].
  split.
  - intros [sc ->]. simpl.
    split; [by intros v ->|]. split; [by intros v ->|].
    split; [by intros ->|].
    intros o ->. simpl. eexists. split; [done|]. apply spreadHmr_carries.
  - by intros ->.
Qed.

Lemma config_keeps_user_values_witness :
  ∃ r,
    config Posix.join sampleUrlHost samplePluginConfig ∅
      (<["ASSET_URL" := "https://cdn.test"]> ∅)
      (sampleUserConfig (Some "/custom/") None) Build = Return r
    ∧ base r = Some "/custom/".
Proof.
  destruct (config_keeps_user_values Posix.join sampleUrlHost samplePluginConfig ∅
              (<["ASSET_URL" := "https://cdn.test"]> ∅)
              (sampleUserConfig (Some "/custom/") None) Build None)
    as (r & b & s & Hr & _ & _ & Hbase & _); [by left|].
  exists r. split; [done|]. by apply Hbase.
Defined.

(** The fallback for [base] in a build. *)
Example config_base_fallback :
  base <$> (match config Posix.join sampleUrlHost samplePluginConfig ∅
                    (<["ASSET_URL" := "https://cdn.test"]> ∅)
                    (sampleUserConfig None None) Build with
            | Return r => Some r
            | Throw _ => None
            end)
  = Some (Some "https://cdn.test/build/").
Proof. reflexivity. Qed.

(** C10: in serve mode with an environment server configuration, a user
    [server.hmr] of [true] gives exactly the environment's hmr object, and
    a user [server.hmr] of [false] gives [false]. *)
Theorem config_hmr_true_false
    (path_join : string → string → string) (url_host : string → option string)
    (pluginConfig : RequiredPluginConfig) (files : FileSystem)
    (env : gmap string string)
    (uc : UserConfig) (sc : EnvServerConfig) :
  resolveEnvironmentServerConfig url_host files env = Return (Some sc) →
  ∃ r s,
    config path_join url_host pluginConfig files env uc Serve = Return r
    ∧ server r = Some s
    ∧ (server uc ≫= hmr = Some (HmrBool true) → hmr s = Some (HmrObject (envHmr sc)))
    ∧ (server uc ≫= hmr = Some (HmrBool false) → hmr s = Some (HmrBool false)).
Proof.
  intros Hsc. unfold config. rewrite Hsc. simpl.
  do 2 eexists. split; [reflexivity|]. simpl. split; [reflexivity|]. simpl.
  split; intros ->; simpl; [|done]. by rewrite spreadHmr_empty.
Qed.

Lemma config_hmr_true_false_witness :
  let env :=
    sampleEnv (Some "/etc/ssl/app.key") (Some "/etc/ssl/app.crt")
      (Some "https://app.test") in
  let user b :=
    sampleUserConfig None
      (Some {| origin := None; host := None; hmr := Some (HmrBool b); https := None |}) in
  (∃ r s,
     config Posix.join sampleUrlHost samplePluginConfig sampleFiles env (user true) Serve
     = Return r
     ∧ server r = Some s
     ∧ hmr s = Some (HmrObject
                       {| hmrProtocol := None; hmrHost := Some "app.test";
                          hmrPort := None; hmrClientPort := None; hmrPath := None;
                          hmrTimeout := None; hmrOverlay := None |}))
  ∧ (∃ r s,
       config Posix.join sampleUrlHost samplePluginConfig sampleFiles env (user false) Serve
       = Return r
       ∧ server r = Some s
       ∧ hmr s = Some (HmrBool false)).
Proof.
  intros env user.
  pose (sc :=
    {| envHmr :=
         {| hmrProtocol := None; hmrHost := Some "app.test"; hmrPort := None;
            hmrClientPort := None; hmrPath := None; hmrTimeout := None;
            hmrOverlay := None |};
       envHost := "app.test";
       envHttps := {| key := Some "KEY"; cert := Some "CERT" |} |}).
  split.
  - destruct (config_hmr_true_false Posix.join sampleUrlHost samplePluginConfig
                sampleFiles env (user true) sc eq_refl) as (r & s & Hr & Hs & Ht & _).
    exists r, s. split; [done|]. split; [done|]. by apply Ht.
  - destruct (config_hmr_true_false Posix.join sampleUrlHost samplePluginConfig
                sampleFiles env (user false) sc eq_refl) as (r & s & Hr & Hs & _ & Hf).
    exists r, s. split; [done|]. split; [done|]. by apply Hf.
Defined.

(** ** The [transform] hook *)

Section ReplaceFacts.

Import Replace.

Lemma getSubstitution_plain matched before after replacement :
  Str.mem "$" replacement = false →
  getSubstitution matched before after replacement = replacement.
Proof.
  induction replacement as [|c r IH]; [done|].
  cbn [Str.mem getSubstitution].
  destruct (Ascii.eqb c "$") eqn:E.
  - apply Ascii.eqb_eq in E as ->. done.
  - rewrite (Ascii.eqb_sym "$" c), E. cbn [orb]. intros H. by rewrite IH.
Qed.

(** Without a [$] in the replacement, [replace] is the textual
    replacement. *)
Lemma go_every_go pat replacement s :
  Str.mem "$" replacement = false →
  ∀ skip before, go pat replacement skip before s = every_go pat replacement skip s.
Proof.
  intros H. induction s as [|c s IH]; intros skip before; simpl; [done|].
  destruct skip as [|k]; [|apply IH].
  rewrite getSubstitution_plain by done. by rewrite !IH.
Qed.

Lemma replaceAll_replaceEvery pat replacement s :
  Str.mem "$" replacement = false →
  replaceAll pat replacement s = replaceEvery pat replacement s.
Proof. intros H. by apply go_every_go. Qed.

(** The three equations that determine [replaceEvery]. *)
Lemma every_go_skip pat new s :
  ∀ k, every_go pat new k s = every_go pat new 0 (Str.drop k s).
Proof.
  induction s as [|c s IH]; intros [|k]; simpl; try done.
Qed.

Lemma replaceEvery_empty pat new : replaceEvery pat new "" = "".
Proof. done. Qed.

Lemma replaceEvery_match pat new s :
  pat ≠ "" → Str.isPrefix pat s = true →
  replaceEvery pat new s
  = new +:+ replaceEvery pat new (Str.drop (String.length pat) s).
Proof.
  unfold replaceEvery. intros Hpat Hs.
  destruct s as [|c s]; [by destruct pat|]. simpl every_go. rewrite Hs.
  rewrite every_go_skip. destruct pat as [|d pat]; [done|]. simpl.
  by rewrite Nat.sub_0_r.
Qed.

Lemma replaceEvery_other pat new c s :
  Str.isPrefix pat (String c s) = false →
  replaceEvery pat new (String c s) = String c (replaceEvery pat new s).
Proof. unfold replaceEvery. simpl every_go. by intros ->. Qed.

End ReplaceFacts.

Example replaceEvery_sample :
  Replace.replaceEvery placeholder "http://[::1]:5173"
    "a('__backend_vite_placeholder__/x.js','__backend_vite_placeholder__')"
  = "a('http://[::1]:5173/x.js','http://[::1]:5173')".
Proof. reflexivity. Qed.

(** C6, the code at the failing input: the user's origin
    "http://a$$b:5173" becomes the dev-server URL when the server starts
    listening and is what the hot file holds, but it is not what the hook
    puts in place of the placeholder: [replace] reads [$$] as a pattern
    and inserts a single [$]. *)
Theorem transform_expands_dollar_patterns :
  let run :=
    onListening (samplePlugin Serve (Some "http://a$$b:5173") None)
      (sampleServer
         (AddressObject
            {| address := "127.0.0.1"; family := FamilyName "IPv4"; port := 5173 |}))
      (startOfProcess ∅) in
  let p := fst run in
  let code := "import('__backend_vite_placeholder__/x.js')" in
  viteDevServerUrl p = Some "http://a$$b:5173"
  ∧ (∃ w, snd run = Return w
          ∧ Fs.readFileSync (files w) (Some "public/hot") = Return "http://a$$b:5173")
  ∧ transform p code = Return (Some "import('http://a$b:5173/x.js')")
  ∧ transform p code
    ≠ Return (Some (transformOnServe (pluginConfig p)
                      (Replace.replaceEvery placeholder "http://a$$b:5173" code)
                      (Some "http://a$$b:5173"))).
Proof.
  intros run p code. split; [done|]. split; [by eexists|]. by split.
Qed.

(** The hook in serve mode, as the code has it: [replace] with the URL as
    the replacement pattern, then [transformOnServe]. *)
Lemma transform_serve (p : Plugin) (rc : ResolvedConfig) (code : string) :
  resolvedConfig p = Some rc → command rc = Serve →
  transform p code
  = Return (Some (transformOnServe (pluginConfig p)
                    (Replace.replaceAll placeholder (show (viteDevServerUrl p)) code)
                    (viteDevServerUrl p))).
Proof. unfold transform. by intros -> ->. Qed.

(** ** The hot file *)

Lemma node_insert files path data :
  path ≠ "" → Fs.node (<[path := data]> files) path = Some (File data).
Proof.
  destruct path; [done|]. intros _. unfold Fs.node, insert, FileSystem_insert.
  simpl. by rewrite lookup_insert_eq.
Qed.

Lemma node_delete files path : Fs.node (delete path files) path = None.
Proof.
  destruct path; [done|]. unfold Fs.node, delete, FileSystem_delete.
  simpl. by rewrite lookup_delete_eq.
Qed.

Lemma files_lookup_insert_ne (files : FileSystem) path path' data :
  path ≠ path' → (<[path := data]> files) !! path' = files !! path'.
Proof.
  intros H. unfold lookup, FileSystem_lookup, insert, FileSystem_insert. simpl.
  by rewrite lookup_insert_ne.
Qed.

Lemma files_lookup_delete_ne (files : FileSystem) path path' :
  path ≠ path' → delete path files !! path' = files !! path'.
Proof.
  intros H. unfold lookup, FileSystem_lookup, delete, FileSystem_delete. simpl.
  by rewrite lookup_delete_ne.
Qed.

Lemma stat_insert files path data :
  path ≠ "" → Fs.stat (<[path := data]> files) path = Some data.
Proof. intros H. by apply stat_node, node_insert. Qed.

Lemma stat_delete files path : Fs.stat (delete path files) path = None.
Proof.
  destruct (Fs.stat _ _) as [data|] eqn:H; [|done].
  apply stat_node in H. by rewrite node_delete in H.
Qed.




Lemma writeFileSync_writable files path data :
  Fs.writable files path = true →
  Fs.writeFileSync files path data = Return (<[path := data]> files).
Proof.
  unfold Fs.writable, Fs.writeFileSync. destruct path as [|c s]; [done|].
  intros H. apply andb_true_iff in H as [Hd Hu].
  apply negb_true_iff in Hd. apply bool_decide_eq_true in Hu.
  by rewrite Hd, Hu.
Qed.

Lemma writable_nonempty files path : Fs.writable files path = true → path ≠ "".
Proof. by destruct path. Qed.










Example onListening_user_origin :
  (λ r, match r with
        | (p', Return w') => (viteDevServerUrl p', files w' !! "public/hot")
        | (_, Throw _) => (None, None)
        end)
    (onListening (samplePlugin Serve (Some "https://assets.test") None)
       (sampleServer
          (AddressObject {| address := "::"; family := FamilyName "IPv6"; port := 5173 |}))
       (startOfProcess ∅))
  = (Some "https://assets.test", Some "https://assets.test").
Proof. reflexivity. Qed.


(** ** Exit and signal handlers *)

Lemma configureServer_bound p w w' :
  exitHandlersBound w = true →
  configureServer p w = Return w' → w' = w.
Proof.
  unfold configureServer. intros ->. destruct (resolvedConfig p); [|done].
  by intros [= <-].
Qed.

Lemma configureServers_bound ps w :
  exitHandlersBound w = true → configureServers ps w = w.
Proof.
  revert w. induction ps as [|p ps IH]; intros w Hw; [done|].
  unfold configureServers in *. simpl.
  destruct (configureServer p w) as [w'|e] eqn:Hp; [|by apply IH].
  apply configureServer_bound in Hp as ->; [|done]. by apply IH.
Qed.

Lemma configureServer_sets_flag p w w' :
  configureServer p w = Return w' → exitHandlersBound w' = true.
Proof.
  unfold configureServer. destruct (resolvedConfig p); [|done].
  destruct (exitHandlersBound w) eqn:Hw; intros [= <-]; done.
Qed.

Lemma configureServer_unbound p w w1 :
  exitHandlersBound w = false →
  configureServer p w = Return w1 →
  listeners w1 = (listeners w ++ exitHandlers (hotFile (pluginConfig p)))%list.
Proof.
  unfold configureServer. intros ->. destruct (resolvedConfig p); [|done].
  by intros [= <-].
Qed.

(** C8: a successful [configureServer] in a process whose guard is not
    yet set attaches the exit listener and the three signal listeners;
    after any successful [configureServer], further calls, of this plugin
    object or of others, leave the listeners of the process as they
    are. *)
Theorem exit_handlers_bound_once (p : Plugin) (w w1 : Process) :
  configureServer p w = Return w1 →
  (exitHandlersBound w = false →
   listeners w1 = (listeners w ++ exitHandlers (hotFile (pluginConfig p)))%list)
  ∧ (exitHandlersBound w = true → listeners w1 = listeners w)
  ∧ ∀ ps, listeners (configureServers ps w1) = listeners w1.
Proof.
  intros Hp. split; [|split].
  - intros Hw. by apply configureServer_unbound.
  - intros Hw. by apply configureServer_bound in Hp as ->.
  - intros ps. rewrite configureServers_bound; [done|].
    by apply configureServer_sets_flag in Hp.
Qed.

Lemma exit_handlers_bound_once_witness :
  let first := samplePlugin Serve None None in
  let second :=
    {| pluginConfig :=
         {| name := "backend"; input := InputPath "admin.js";
            publicDirectory := "public"; buildDirectory := "admin";
            hotFile := "public/admin-hot"; detectTls := TlsNull;
            transformOnServe := λ code _, code |};
       viteDevServerUrl := None;
       resolvedConfig := Some (sampleResolvedConfig Serve);
       userConfig := None |} in
  ∃ w1,
    configureServer first (startOfProcess ∅) = Return w1
    ∧ listeners w1 = exitHandlers "public/hot"
    ∧ listeners (configureServers [second; first; second] w1) = exitHandlers "public/hot".
Proof.
  intros first second. eexists. split; [reflexivity|].
  destruct (exit_handlers_bound_once first (startOfProcess ∅) _ eq_refl)
    as (Hfirst & _ & Hlater).
  split; [by rewrite Hfirst|].
  by rewrite (Hlater [second; first; second]), Hfirst.
Defined.

(** X19: in a process that starts without listeners, no sequence of
    [configureServer] calls attaches more than the four listeners of one
    call. *)
Lemma exit_handlers_at_most_once ps files0 :
  listeners (configureServers ps (startOfProcess files0)) = []
  ∨ ∃ p, p ∈ ps
         ∧ listeners (configureServers ps (startOfProcess files0))
           = exitHandlers (hotFile (pluginConfig p)).
Proof.
  assert (∀ w, exitHandlersBound w = false → listeners w = [] →
               listeners (configureServers ps w) = []
               ∨ ∃ p, p ∈ ps ∧ listeners (configureServers ps w)
                               = exitHandlers (hotFile (pluginConfig p))) as H.
  { induction ps as [|p ps IH]; intros w Hflag Hnone; [by left|].
    unfold configureServers in *. simpl.
    destruct (configureServer p w) as [w1|e] eqn:Hp.
    - right. exists p. split; [by left|].
      pose proof (configureServers_bound ps w1
                    (configureServer_sets_flag _ _ _ Hp)) as Hlater.
      unfold configureServers in Hlater.
      by rewrite Hlater, (configureServer_unbound _ _ _ Hflag Hp), Hnone.
    - destruct (IH w Hflag Hnone) as [?|(q & ? & ?)]; [by left|].
      right. exists q. split; [by right|done]. }
  by apply H.
Qed.

(** ** Addresses that are not an [AddressInfo] *)

(** X15: a pipe name and [undefined] fail the [typeof] test: nothing is
    written and nothing assigned. *)
Lemma onListening_pipe_or_undefined (p : Plugin) (devServer : ViteDevServer) (w : Process) :
  httpServerAddress devServer = AddressUndefined
  ∨ (∃ pipe, httpServerAddress devServer = AddressPipe pipe) →
  onListening p devServer w = (p, Return w).
Proof. unfold onListening. by intros [->|[pipe ->]]. Qed.

(** X16: with [null] the [typeof] test succeeds. Without a user origin
    the handler then throws on [address.family], before anything is
    assigned or written. *)
Lemma onListening_null_without_origin (p : Plugin) (devServer : ViteDevServer)
    (w : Process) (uc : UserConfig) :
  httpServerAddress devServer = AddressNull →
  userConfig p = Some uc →
  truthy (server uc ≫= origin) = false →
  onListening p devServer w = (p, Throw (nullProperty "family")).
Proof. unfold onListening, listeningUrl. by intros -> -> ->. Qed.

(** C9, the code at the failing input: the address is [null] and the user
    has set [server.origin]. The handler passes the [typeof] test, assigns
    the origin to [viteDevServerUrl] and writes the hot file. *)
Theorem onListening_null_address_writes_hot_file :
  ∃ p' w',
    onListening (samplePlugin Serve (Some "https://assets.test") None)
      (sampleServer AddressNull) (startOfProcess ∅)
    = (p', Return w')
    ∧ viteDevServerUrl p' = Some "https://assets.test"
    ∧ files w' !! "public/hot" = Some "https://assets.test"
    ∧ Fs.existsSync (files w') (Some "public/hot") = true.
Proof. do 2 eexists. by repeat split. Qed.

(** * Further properties of the code *)

(** ** The shape of a normalised configuration *)

Lemma isPrefix_slash s :
  Str.isPrefix "/" s = true ↔ ∃ s', s = String "/" s'.
Proof.
  destruct s as [|c s']; [by split; [|intros [? ?]]|].
  cbn [Str.isPrefix]. rewrite andb_true_r. split.
  - intros H. apply Ascii.eqb_eq in H as <-. by exists s'.
  - intros [t [= -> _]]. apply Ascii.eqb_refl.
Qed.

Lemma dropWhile_head (p : ascii → bool) s c s' :
  Str.dropWhile p s = String c s' → p c = false.
Proof.
  intros H. pose proof (dropWhile_idem p s) as Hi. rewrite H in Hi.
  apply dropWhile_fixed in Hi as [?|(d & t & [= <- <-] & ?)]; done.
Qed.

Lemma dropWhileEnd_last (p : ascii → bool) s c :
  Str.last (Str.dropWhileEnd p s) = Some c → p c = false.
Proof.
  induction s as [|d s IH]; simpl; [done|].
  destruct (Str.dropWhileEnd p s) as [|e r] eqn:Hr.
  - destruct (p d) eqn:Hd; simpl; [done|]. by intros [= <-].
  - simpl in IH. done.
Qed.

Lemma stripLeadingSlashes_no_slash s :
  Str.isPrefix "/" (Str.stripLeadingSlashes s) = false.
Proof.
  destruct (Str.isPrefix "/" _) eqn:H; [|done].
  apply isPrefix_slash in H as [s' H].
  by apply dropWhile_head in H.
Qed.

Lemma normalizeBuildDirectory_no_slash s :
  Str.isPrefix "/" (normalizeBuildDirectory s) = false
  ∧ Str.endsWithSlash (normalizeBuildDirectory s) = false.
Proof.
  unfold normalizeBuildDirectory, Str.stripTrailingSlashes. split.
  - destruct (Str.isPrefix "/" _) eqn:H; [|done].
    apply isPrefix_slash in H as [s' H].
    pose proof (dropWhile_dropWhileEnd Str.isSlash Str.isSlash
                  (Str.stripLeadingSlashes (Str.trim s))
                  (dropWhile_idem _ _)) as Hd.
    rewrite H in Hd. simpl in Hd.
    assert (Hlen := dropWhile_length Str.isSlash s').
    rewrite Hd in Hlen. simpl in Hlen. lia.
  - unfold Str.endsWithSlash.
    destruct (Str.last _) as [c|] eqn:H; [|done].
    by apply dropWhileEnd_last in H.
Qed.

(** X1: every configuration the normaliser produces has a non-empty
    publicDirectory without a leading slash and a non-empty buildDirectory
    with neither a leading nor a trailing slash. *)
Theorem resolvePluginConfig_shape
    (path_join : string → string → string) (arg : ConfigArg)
    (r : RequiredPluginConfig) :
  resolvePluginConfig path_join arg = Return r →
  publicDirectory r ≠ ""
  ∧ Str.isPrefix "/" (publicDirectory r) = false
  ∧ buildDirectory r ≠ ""
  ∧ Str.isPrefix "/" (buildDirectory r) = false
  ∧ Str.endsWithSlash (buildDirectory r) = false.
Proof.
  intros Hr. apply resolvePluginConfig_object in Hr as [c Hc].
  apply resolveObject_Return in Hc as ([s Hs] & Hp & [t Ht] & Hb).
  split; [done|]. split; [rewrite Hs; apply stripLeadingSlashes_no_slash|].
  split; [done|]. rewrite Ht. apply normalizeBuildDirectory_no_slash.
Qed.

Lemma resolvePluginConfig_shape_witness :
  ∃ r,
    resolvePluginConfig Posix.join
      (ArgObject
         {| cName := None; cInput := Some (InputPath "app.js");
            cPublicDirectory := Some " ///static/ "; cBuildDirectory := Some "//dist/assets///";
            cHotFile := None; cDetectTls := None; cTransformOnServe := None |})
    = Return r
    ∧ publicDirectory r = "static/" ∧ buildDirectory r = "dist/assets"
    ∧ Str.isPrefix "/" (publicDirectory r) = false
    ∧ Str.endsWithSlash (buildDirectory r) = false.
Proof.
  eexists. split; [reflexivity|]. split; [done|]. split; [done|].
  match goal with
  | |- Str.isPrefix _ (publicDirectory ?r) = _ ∧ _ =>
      destruct (resolvePluginConfig_shape Posix.join
                  (ArgObject
                     {| cName := None; cInput := Some (InputPath "app.js");
                        cPublicDirectory := Some " ///static/ ";
                        cBuildDirectory := Some "//dist/assets///";
                        cHotFile := None; cDetectTls := None;
                        cTransformOnServe := None |}) r eq_refl)
        as (_ & H1 & _ & _ & H2)
  end.
  by split.
Defined.

(** X2: the checks of the normaliser come in a fixed order. No argument
    gives the missing-configuration error; an object without [input] gives
    the missing-input error whatever its directories are; with an [input],
    an empty publicDirectory is reported before an empty buildDirectory;
    and with an [input] and no empty directory a configuration is
    produced. *)
Theorem resolvePluginConfig_errors
    (path_join : string → string → string) (c : PluginConfig) :
  let badPublic := ∃ s, cPublicDirectory c = Some s ∧ normalizePublicDirectory s = "" in
  let badBuild := ∃ s, cBuildDirectory c = Some s ∧ normalizeBuildDirectory s = "" in
  resolvePluginConfig path_join ArgUndefined = Throw missingConfiguration
  ∧ (cInput c = None →
     resolvePluginConfig path_join (ArgObject c) = Throw missingInput)
  ∧ (is_Some (cInput c) → badPublic →
     resolvePluginConfig path_join (ArgObject c) = Throw emptyPublicDirectory)
  ∧ (is_Some (cInput c) → ¬ badPublic → badBuild →
     resolvePluginConfig path_join (ArgObject c) = Throw emptyBuildDirectory)
  ∧ (is_Some (cInput c) → ¬ badPublic → ¬ badBuild →
     ∃ r, resolvePluginConfig path_join (ArgObject c) = Return r).
Proof.
  intros badPublic badBuild. simpl. unfold resolveObject.
  split; [done|]. split; [by intros ->|].
  assert (Hpub : ¬ badPublic →
                 checkDirectory normalizePublicDirectory emptyPublicDirectory
                   (cPublicDirectory c)
                 = Return (normalizePublicDirectory <$> cPublicDirectory c)).
  { intros Hn. unfold checkDirectory. destruct (cPublicDirectory c) as [s|]; [|done].
    case_decide; [|done]. destruct Hn. by exists s. }
  split; [|split].
  - intros [i ->] (s & -> & Hs). simpl. by rewrite Hs.
  - intros [i ->] Hn (s & -> & Hs). rewrite (Hpub Hn). simpl. by rewrite Hs.
  - intros [i ->] Hn Hm. rewrite (Hpub Hn). simpl.
    unfold checkDirectory. destruct (cBuildDirectory c) as [s|]; simpl; [|by eexists].
    case_decide; [|by eexists]. destruct Hm. by exists s.
Qed.

Lemma resolvePluginConfig_errors_witness :
  let c i s t :=
    {| cName := None; cInput := i; cPublicDirectory := s; cBuildDirectory := t;
       cHotFile := None; cDetectTls := None; cTransformOnServe := None |} in
  resolvePluginConfig Posix.join (ArgObject (c None (Some "/") (Some "/")))
  = Throw missingInput
  ∧ resolvePluginConfig Posix.join (ArgObject (c (Some (InputPath "a.js")) (Some "/") (Some "/")))
    = Throw emptyPublicDirectory
  ∧ resolvePluginConfig Posix.join (ArgObject (c (Some (InputPath "a.js")) None (Some " / ")))
    = Throw emptyBuildDirectory
  ∧ ∃ r, resolvePluginConfig Posix.join
           (ArgObject (c (Some (InputPath "a.js")) (Some "web") None)) = Return r.
Proof.
  intros c.
  assert (Hsome : is_Some (Some (InputPath "a.js"))) by by eexists.
  split; [|split; [|split]].
  - destruct (resolvePluginConfig_errors Posix.join (c None (Some "/") (Some "/")))
      as (_ & H & _).
    by apply H.
  - destruct (resolvePluginConfig_errors Posix.join
                (c (Some (InputPath "a.js")) (Some "/") (Some "/")))
      as (_ & _ & H & _).
    apply H; [done|]. by exists "/".
  - destruct (resolvePluginConfig_errors Posix.join
                (c (Some (InputPath "a.js")) None (Some " / ")))
      as (_ & _ & _ & H & _).
    apply H; [done| |by exists " / "]. by intros (s & [=] & _).
  - destruct (resolvePluginConfig_errors Posix.join
                (c (Some (InputPath "a.js")) (Some "web") None))
      as (_ & _ & _ & _ & H).
    apply H; [done| |by intros (s & [=] & _)].
    by intros (s & [= <-] & Hs).
Defined.

(** X3: apart from the two directories, a resolved configuration holds
    the user's values where they were given and the defaults elsewhere;
    the default hot file is [path.join] of the normalised publicDirectory
    and "hot", and the default [transformOnServe] returns the code as it
    is. *)
Theorem resolvePluginConfig_fields
    (path_join : string → string → string) (c : PluginConfig)
    (r : RequiredPluginConfig) :
  resolvePluginConfig path_join (ArgObject c) = Return r →
  cInput c = Some (input r)
  ∧ name r = cName c ?? "backend"
  ∧ hotFile r = cHotFile c ?? path_join (publicDirectory r) "hot"
  ∧ detectTls r = cDetectTls c ?? TlsNull
  ∧ (∀ f, cTransformOnServe c = Some f → transformOnServe r = f)
  ∧ (cTransformOnServe c = None → ∀ code url, transformOnServe r code url = code).
Proof.
  simpl. unfold resolveObject. destruct (cInput c) as [i|]; [|done].
  destruct (checkDirectory _ _ (cPublicDirectory c)) as [pd|]; [|done].
  destruct (checkDirectory _ _ (cBuildDirectory c)) as [bd|]; [|done].
  simpl. intros [= <-]. simpl.
  repeat split; [by intros f ->|by intros ->].
Qed.

Lemma resolvePluginConfig_fields_witness :
  ∃ r,
    resolvePluginConfig Posix.join
      (ArgObject
         {| cName := None; cInput := Some (InputPaths ["a.js"; "b.css"]);
            cPublicDirectory := Some "/web/"; cBuildDirectory := None;
            cHotFile := None; cDetectTls := Some (TlsBool true);
            cTransformOnServe := None |})
    = Return r
    ∧ hotFile r = "web/hot" ∧ name r = "backend" ∧ detectTls r = TlsBool true
    ∧ transformOnServe r "x" None = "x".
Proof.
  eexists. split; [reflexivity|].
  match goal with
  | |- hotFile ?r = _ ∧ _ =>
      destruct (resolvePluginConfig_fields Posix.join
                  {| cName := None; cInput := Some (InputPaths ["a.js"; "b.css"]);
                     cPublicDirectory := Some "/web/"; cBuildDirectory := None;
                     cHotFile := None; cDetectTls := Some (TlsBool true);
                     cTransformOnServe := None |} r eq_refl)
        as (_ & Hn & Hh & Hd & _ & Ht)
  end.
  split; [by rewrite Hh|]. split; [by rewrite Hn|]. split; [by rewrite Hd|].
  by apply Ht.
Defined.

(** ** [resolveBase] *)

Lemma last_append a b : b ≠ "" → Str.last (a +:+ b) = Str.last b.
Proof.
  intros Hb. induction a as [|c a IH]; simpl; [done|].
  rewrite <- IH. destruct (a +:+ b) eqn:Hab; [|done].
  destruct a; simpl in Hab; [done|discriminate].
Qed.

Lemma endsWithSlash_append a b :
  Str.endsWithSlash b = true → Str.endsWithSlash (a +:+ b) = true.
Proof.
  intros H. unfold Str.endsWithSlash in *.
  rewrite last_append; [done|]. by intros ->.
Qed.

(** X4: the build base always ends in a slash, and exactly one slash is
    put between the asset URL and the build directory: none is added to an
    asset URL that ends in one. With an empty asset URL the base is the
    build directory between two slashes. *)
Theorem resolveBase_shape (c : RequiredPluginConfig) (assetUrl : string) :
  Str.endsWithSlash (resolveBase c assetUrl) = true
  ∧ (Str.endsWithSlash assetUrl = true →
     resolveBase c assetUrl = assetUrl +:+ buildDirectory c +:+ "/")
  ∧ (Str.endsWithSlash assetUrl = false →
     resolveBase c assetUrl = assetUrl +:+ "/" +:+ buildDirectory c +:+ "/")
  ∧ resolveBase c "" = "/" +:+ buildDirectory c +:+ "/".
Proof.
  unfold resolveBase. split; [|split; [|split]].
  - do 3 (apply endsWithSlash_append). done.
  - by intros ->.
  - by intros ->.
  - done.
Qed.

Lemma resolveBase_shape_witness :
  resolveBase samplePluginConfig "https://cdn.test/" = "https://cdn.test/build/"
  ∧ resolveBase samplePluginConfig "https://cdn.test" = "https://cdn.test/build/".
Proof.
  destruct (resolveBase_shape samplePluginConfig "https://cdn.test/") as (_ & H1 & _).
  destruct (resolveBase_shape samplePluginConfig "https://cdn.test") as (_ & _ & H2 & _).
  split; [by rewrite H1|by rewrite H2].
Defined.

(** ** Outcomes of the environment resolver *)

(** The ways [resolveEnvironmentServerConfig] can end. *)
Lemma resolveEnvironmentServerConfig_outcome
    (url_host : string → option string) (files : FileSystem)
    (env : gmap string string) :
  let keyPath := env !! "VITE_DEV_SERVER_KEY" in
  let certPath := env !! "VITE_DEV_SERVER_CERT" in
  let result := resolveEnvironmentServerConfig url_host files env in
  (truthy keyPath = false ∧ truthy certPath = false ∧ result = Return None)
  ∨ ((truthy keyPath = true ∨ truthy certPath = true) ∧ threw result)
  ∨ (∃ kp cp k c h,
       keyPath = Some kp ∧ kp ≠ "" ∧ certPath = Some cp ∧ cp ≠ ""
       ∧ Fs.stat files kp = Some k ∧ Fs.stat files cp = Some c
       ∧ url_host (show (env !! "APP_URL")) = Some h ∧ h ≠ ""
       ∧ result = Return (Some {| envHmr := envHmrOf h; envHost := h;
                                  envHttps := {| key := Some k; cert := Some c |} |})).
Proof.
  intros keyPath certPath result. subst result.
  unfold resolveEnvironmentServerConfig, resolveHostFromEnv. fold keyPath certPath.
  destruct (truthy keyPath) eqn:Hk, (truthy certPath) eqn:Hc; simpl;
    [| | |by left].
  all: destruct (Fs.existsSync files keyPath) eqn:Hek,
         (Fs.existsSync files certPath) eqn:Hec; simpl;
    try (pose proof (existsSync_truthy _ _ Hek));
    try (pose proof (existsSync_truthy _ _ Hec)); try congruence;
    try (right; left; split; [eauto|by eexists]).
  destruct (url_host _) as [[|x h]|] eqn:Hh;
    [right; left; split; [eauto|by eexists]|
    |right; left; split; [eauto|by eexists]].
  destruct keyPath as [kp|] eqn:Hkp; [|done].
  destruct certPath as [cp|] eqn:Hcp; [|done].
  simpl.
  destruct (Fs.node files kp) as [[k|]|] eqn:Hnk; simpl;
    [|right; left; split; [eauto|by eexists]..].
  destruct (Fs.node files cp) as [[c|]|] eqn:Hnc; simpl;
    [|right; left; split; [eauto|by eexists]..].
  right. right. exists kp, cp, k, c, (String x h).
  apply stat_node in Hnk, Hnc.
  repeat split; try done.
  - by destruct kp.
  - by destruct cp.
Qed.

(** X5: the resolver returns no override exactly when neither path
    variable is set; and it returns an override only when both variables
    name regular files and APP_URL has a non-empty host, in which case the
    override holds exactly that host, an [hmr] object with that host and
    nothing else, and the contents of the two files. *)
Theorem resolveEnvironmentServerConfig_outcomes
    (url_host : string → option string) (files : FileSystem)
    (env : gmap string string) :
  let keyPath := env !! "VITE_DEV_SERVER_KEY" in
  let certPath := env !! "VITE_DEV_SERVER_CERT" in
  let result := resolveEnvironmentServerConfig url_host files env in
  (result = Return None ↔ truthy keyPath = false ∧ truthy certPath = false)
  ∧ (∀ sc, result = Return (Some sc) →
       ∃ kp cp k c,
         keyPath = Some kp ∧ certPath = Some cp
         ∧ Fs.readFileSync files (Some kp) = Return k
         ∧ Fs.readFileSync files (Some cp) = Return c
         ∧ url_host (show (env !! "APP_URL")) = Some (envHost sc)
         ∧ envHost sc ≠ ""
         ∧ envHmr sc = envHmrOf (envHost sc)
         ∧ envHttps sc = {| key := Some k; cert := Some c |}).
Proof.
  intros keyPath certPath result.
  pose proof (resolveEnvironmentServerConfig_outcome url_host files env) as H.
  simpl in H. fold keyPath certPath result in H.
  destruct H
    as [(Hk & Hc & Hr)|[(Hset & [e Hr])|(kp & cp & k & c & h & Hkp & Hkne & Hcp & Hcne
                                         & Hks & Hcs & Hh & Hne & Hr)]].
  - rewrite Hr. by split.
  - rewrite Hr. split; [|done].
    split; [done|]. intros [Hk Hc]. destruct Hset; congruence.
  - rewrite Hr. split.
    + split; [done|]. intros [Hk _]. rewrite Hkp in Hk. by destruct kp.
    + intros sc [= <-]. exists kp, cp, k, c.
      rewrite (readFileSync_stat _ _ _ Hks), (readFileSync_stat _ _ _ Hcs). done.
Qed.

Lemma resolveEnvironmentServerConfig_outcomes_witness :
  ∃ sc k c,
    resolveEnvironmentServerConfig sampleUrlHost sampleFiles
      (sampleEnv (Some "/etc/ssl/app.key") (Some "/etc/ssl/app.crt")
         (Some "https://app.test"))
    = Return (Some sc)
    ∧ Fs.readFileSync sampleFiles (Some "/etc/ssl/app.key") = Return k
    ∧ Fs.readFileSync sampleFiles (Some "/etc/ssl/app.crt") = Return c
    ∧ envHttps sc = {| key := Some k; cert := Some c |}
    ∧ envHmr sc = envHmrOf (envHost sc).
Proof.
  destruct (resolveEnvironmentServerConfig_outcomes sampleUrlHost sampleFiles
              (sampleEnv (Some "/etc/ssl/app.key") (Some "/etc/ssl/app.crt")
                 (Some "https://app.test"))) as (_ & H).
  destruct (H {| envHmr := envHmrOf "app.test"; envHost := "app.test";
                 envHttps := {| key := Some "KEY"; cert := Some "CERT" |} |} eq_refl)
    as (kp & cp & k & c & Hkp & Hcp & Hk & Hc & _ & _ & Hhmr & Hhttps).
  injection Hkp as <-. injection Hcp as <-.
  eexists _, k, c. split; [reflexivity|]. done.
Defined.

(** A path variable that names a directory passes the existence check;
    the read that follows throws. *)
Example resolveEnvironmentServerConfig_directory :
  resolveEnvironmentServerConfig sampleUrlHost
    {| nodes := <["/etc/ssl" := Directory]> (nodes sampleFiles); unwritable := ∅ |}
    (sampleEnv (Some "/etc/ssl") (Some "/etc/ssl/app.crt") (Some "https://app.test"))
  = Throw (SystemError "EISDIR" "/etc/ssl").
Proof. reflexivity. Qed.

(** ** The [config] hook: fallbacks, build mode, errors *)

Lemma config_Return
    (path_join : string → string → string) (url_host : string → option string)
    (pluginConfig : RequiredPluginConfig) (files : FileSystem)
    (env : gmap string string)
    (uc : UserConfig) (cmd : Command) (serverConfig : option EnvServerConfig) :
  (cmd = Build ∧ serverConfig = None
   ∨ cmd = Serve
     ∧ resolveEnvironmentServerConfig url_host files env = Return serverConfig) →
  config path_join url_host pluginConfig files env uc cmd
  = Return
      {| base :=
           Some (base uc ??
                   match cmd with
                   | Build => resolveBase pluginConfig (env !! "ASSET_URL" ?? "")
                   | Serve => ""
                   end);
         publicDir := Some (publicDir uc ?? PublicDirFalse);
         build := Some
           {| manifest := Some ((build uc ≫= manifest) ?? ManifestName "manifest.json");
              outDir := Some ((build uc ≫= outDir) ?? resolveOutDir path_join pluginConfig);
              rollupOptions := Some
                {| rollupInput :=
                     Some (((build uc ≫= rollupOptions) ≫= rollupInput)
                             ?? asRollupInput (resolveInput pluginConfig)) |};
              assetsInlineLimit := Some ((build uc ≫= assetsInlineLimit) ?? 0%N) |};
         server := Some (mergeServer uc serverConfig);
         resolve := Some {| alias := Some (mergeAlias uc) |};
         envDir := None |}.
Proof.
  intros Hcmd. unfold config.
  by destruct Hcmd as [[-> ->]|[-> ->]].
Qed.

(** X6: where the user configuration leaves a field unset, the hook
    returns its fallback: the build base (or the empty base when
    serving), no public directory, the manifest name "manifest.json", the
    joined output directory, the plugin's input, an inline limit of 0 and
    the placeholder origin; with an environment server configuration also
    its host, its [https] and its [hmr] object. The alias is the user's,
    or an empty object. *)
Theorem config_fallbacks
    (path_join : string → string → string) (url_host : string → option string)
    (pluginConfig : RequiredPluginConfig) (files : FileSystem)
    (env : gmap string string)
    (uc : UserConfig) (cmd : Command) (serverConfig : option EnvServerConfig) :
  (cmd = Build ∧ serverConfig = None
   ∨ cmd = Serve
     ∧ resolveEnvironmentServerConfig url_host files env = Return serverConfig) →
  ∃ r b s,
    config path_join url_host pluginConfig files env uc cmd = Return r
    ∧ build r = Some b ∧ server r = Some s
    ∧ (base uc = None →
       (cmd = Build →
        base r = Some (resolveBase pluginConfig (env !! "ASSET_URL" ?? "")))
       ∧ (cmd = Serve → base r = Some ""))
    ∧ (publicDir uc = None → publicDir r = Some PublicDirFalse)
    ∧ (build uc ≫= manifest = None → manifest b = Some (ManifestName "manifest.json"))
    ∧ (build uc ≫= outDir = None →
       outDir b = Some (path_join (publicDirectory pluginConfig)
                          (buildDirectory pluginConfig)))
    ∧ ((build uc ≫= rollupOptions) ≫= rollupInput = None →
       rollupOptions b ≫= rollupInput = Some (asRollupInput (input pluginConfig)))
    ∧ (build uc ≫= assetsInlineLimit = None → assetsInlineLimit b = Some 0%N)
    ∧ (server uc ≫= origin = None → origin s = Some placeholder)
    ∧ (∀ sc, serverConfig = Some sc →
         (server uc ≫= host = None → host s = Some (HostName (envHost sc)))
         ∧ (server uc ≫= https = None → https s = Some (envHttps sc))
         ∧ (server uc ≫= hmr = None → hmr s = Some (HmrObject (envHmr sc))))
    ∧ (resolve r ≫= alias = Some ((resolve uc ≫= alias) ?? AliasObject [])).
Proof.
  intros Hcmd. rewrite (config_Return _ _ _ _ _ _ _ _ Hcmd).
  do 3 eexists. split; [reflexivity|]. simpl.
  split; [reflexivity|]. split; [reflexivity|].
  split; [by intros ->; split; intros ->|].
  split; [by intros ->|]. split; [by intros ->|]. split; [by intros ->|].
  split; [by intros ->|]. split; [by intros ->|].
  split; [by unfold mergeServer; destruct serverConfig; intros ->|].
  split.
  - intros sc ->. simpl. split; [by intros ->|]. split; [by intros ->|].
    intros ->. simpl. by rewrite spreadHmr_empty.
  - unfold mergeAlias. by destruct (resolve uc ≫= alias) as [[es|es]|].
Qed.

Lemma config_fallbacks_witness :
  ∃ r b s,
    config Posix.join sampleUrlHost samplePluginConfig ∅ ∅
      (sampleUserConfig None None) Build = Return r
    ∧ build r = Some b ∧ server r = Some s
    ∧ base r = Some "/build/"
    ∧ outDir b = Some "public/build"
    ∧ origin s = Some "__backend_vite_placeholder__".
Proof.
  destruct (config_fallbacks Posix.join sampleUrlHost samplePluginConfig ∅ ∅
              (sampleUserConfig None None) Build None)
    as (r & b & s & Hr & Hb & Hs & Hbase & _ & _ & Hout & _ & _ & Horigin & _);
    [by left|].
  exists r, b, s. split; [done|]. split; [done|]. split; [done|].
  split; [by apply Hbase|]. split; [by apply Hout|]. by apply Horigin.
Defined.

(** X7: in build mode the hook returns whenever [loadEnv] returns. It
    does not call the environment resolver: beyond what [loadEnv] reads no
    file matters, nor do APP_URL and the TLS variables, and of the
    environment only ASSET_URL has a part in the result. The [server]
    object returned has an origin and no host, hmr or https. *)
Theorem configHook_build
    (path_join : string → string → string)
    (url_host url_host' : string → option string)
    (loadEnv loadEnv' : FileSystem → string → string → string
                        → Result (gmap string string))
    (cwd cwd' : string) (p : Plugin) (files files' : FileSystem)
    (env env' : gmap string string) (uc : UserConfig) (mode mode' : string) :
  loadEnv files mode (envDirOf cwd uc) "" = Return env →
  loadEnv' files' mode' (envDirOf cwd' uc) "" = Return env' →
  env !! "ASSET_URL" = env' !! "ASSET_URL" →
  snd (configHook path_join url_host loadEnv cwd p files uc Build mode)
  = snd (configHook path_join url_host' loadEnv' cwd' p files' uc Build mode')
  ∧ ∃ r s,
      snd (configHook path_join url_host loadEnv cwd p files uc Build mode) = Return r
      ∧ server r = Some s
      ∧ is_Some (origin s) ∧ host s = None ∧ hmr s = None ∧ https s = None.
Proof.
  intros Hload Hload' Henv. unfold configHook. simpl. rewrite Hload, Hload'. simpl.
  rewrite (config_Return path_join url_host (pluginConfig p) files env uc Build None)
    by (by left).
  rewrite (config_Return path_join url_host' (pluginConfig p) files' env' uc Build None)
    by (by left).
  rewrite Henv. split; [done|]. do 2 eexists. split; [reflexivity|]. simpl.
  split; [reflexivity|]. simpl. by repeat split.
Qed.

Lemma configHook_build_witness :
  snd (configHook Posix.join sampleUrlHost
         (sampleLoadEnv (sampleEnv (Some "/etc/ssl/app.key") None None)) "/srv/app"
         (resolveBackendPlugin samplePluginConfig) sampleFiles
         (sampleUserConfig None None) Build "production")
  = snd (configHook Posix.join (λ _, None) (sampleLoadEnv ∅) "/"
           (resolveBackendPlugin samplePluginConfig) ∅
           (sampleUserConfig None None) Build "staging").
Proof.
  by apply (configHook_build Posix.join sampleUrlHost (λ _, None)
              (sampleLoadEnv (sampleEnv (Some "/etc/ssl/app.key") None None))
              (sampleLoadEnv ∅) "/srv/app" "/"
              (resolveBackendPlugin samplePluginConfig) sampleFiles ∅
              (sampleEnv (Some "/etc/ssl/app.key") None None) ∅
              (sampleUserConfig None None) "production" "staging").
Defined.

(** X8: the hook throws what [loadEnv] throws, in either mode; in serve
    mode, once [loadEnv] has returned, it throws exactly when the
    environment resolver throws, and then with the resolver's error. In
    every case the plugin object has stored the user configuration. *)
Theorem configHook_errors
    (path_join : string → string → string) (url_host : string → option string)
    (loadEnv : FileSystem → string → string → string → Result (gmap string string))
    (cwd : string) (p : Plugin) (files : FileSystem) (uc : UserConfig)
    (cmd : Command) (mode : string) :
  let run c := configHook path_join url_host loadEnv cwd p files uc c mode in
  userConfig (fst (run cmd)) = Some uc
  ∧ (∀ e, loadEnv files mode (envDirOf cwd uc) "" = Throw e →
          snd (run cmd) = Throw e)
  ∧ (∀ env e, loadEnv files mode (envDirOf cwd uc) "" = Return env →
       (snd (run Serve) = Throw e
        ↔ resolveEnvironmentServerConfig url_host files env = Throw e)).
Proof.
  intros run. subst run. unfold configHook. simpl. split; [done|]. split.
  - by intros e ->.
  - intros env e ->. simpl. unfold config.
    destruct (resolveEnvironmentServerConfig url_host files env) as [sc|e'];
      simpl; [by split|]. by split; intros [= ->].
Qed.

Lemma configHook_errors_witness :
  let env := sampleEnv (Some "/etc/ssl/app.key") None (Some "https://app.test") in
  let run mode :=
    configHook Posix.join sampleUrlHost (sampleLoadEnv env) "/srv/app"
      (resolveBackendPlugin samplePluginConfig) sampleFiles
      (sampleUserConfig None None) Serve mode in
  snd (run "local") = Throw (Error "'local' cannot be used as a mode name")
  ∧ snd (run "development") = Throw (missingCertificates env)
  ∧ userConfig (fst (run "development")) = Some (sampleUserConfig None None).
Proof.
  intros env run. subst run. split; [|split].
  - destruct (configHook_errors Posix.join sampleUrlHost (sampleLoadEnv env) "/srv/app"
                (resolveBackendPlugin samplePluginConfig) sampleFiles
                (sampleUserConfig None None) Serve "local") as (_ & H & _).
    by apply H.
  - destruct (configHook_errors Posix.join sampleUrlHost (sampleLoadEnv env) "/srv/app"
                (resolveBackendPlugin samplePluginConfig) sampleFiles
                (sampleUserConfig None None) Serve "development") as (_ & _ & H).
    by apply (H env).
  - by destruct (configHook_errors Posix.join sampleUrlHost (sampleLoadEnv env)
                   "/srv/app" (resolveBackendPlugin samplePluginConfig) sampleFiles
                   (sampleUserConfig None None) Serve "development") as (H & _).
Defined.

(** ** More on the dev-server URL *)

(** X10: the URL always starts with "http://" or with "https://". *)
Theorem resolveDevServerUrl_scheme (a : AddressInfo) (config : ResolvedConfig) :
  Str.isPrefix "http://" (resolveDevServerUrl a config) = true
  ∨ Str.isPrefix "https://" (resolveDevServerUrl a config) = true.
Proof.
  unfold resolveDevServerUrl.
  destruct (truthy _); [case_decide|destruct (https _)]; simpl; auto.
Qed.

(** X11: with an HMR host the URL does not depend on the address or the
    family of the socket, and with an HMR host and an HMR clientPort it
    does not depend on the socket at all. *)
Theorem resolveDevServerUrl_overrides
    (a a' : AddressInfo) (config : ResolvedConfig) (h : string) :
  hmrField hmrHost (resolvedServer config) = Some h →
  (port a = port a' → resolveDevServerUrl a config = resolveDevServerUrl a' config)
  ∧ (is_Some (hmrField hmrClientPort (resolvedServer config)) →
     resolveDevServerUrl a config = resolveDevServerUrl a' config).
Proof.
  intros Hh. unfold resolveDevServerUrl. rewrite Hh. simpl. split.
  - by intros ->.
  - by intros [n ->].
Qed.

Lemma resolveDevServerUrl_overrides_witness :
  let config :=
    {| command := Serve; mode := "development"; resolvedEnvDir := None;
       resolvedServer :=
         {| origin := None; host := None;
            hmr := Some (HmrObject
                           {| hmrProtocol := None; hmrHost := Some "example.test";
                              hmrPort := None; hmrClientPort := Some 8080%N;
                              hmrPath := None; hmrTimeout := None;
                              hmrOverlay := None |});
            https := None |} |} in
  resolveDevServerUrl {| address := "::1"; family := FamilyNumber 6; port := 5173 |} config
  = resolveDevServerUrl
      {| address := "127.0.0.1"; family := FamilyName "IPv4"; port := 3000 |} config.
Proof.
  intros config.
  destruct (resolveDevServerUrl_overrides
              {| address := "::1"; family := FamilyNumber 6; port := 5173 |}
              {| address := "127.0.0.1"; family := FamilyName "IPv4"; port := 3000 |}
              config "example.test" eq_refl) as [_ H].
  apply H. by eexists.
Defined.

(** ** More on the [transform] hook *)

Lemma go_no_occurrence pat replacement s :
  occursIn pat s = false →
  ∀ before, Replace.go pat replacement 0 before s = s.
Proof.
  induction s as [|c s IH]; intros Hocc before; [done|].
  cbn [occursIn] in Hocc. apply orb_false_iff in Hocc as [Hhere Hlater].
  cbn [Replace.go]. rewrite Hhere. by rewrite IH.
Qed.

(** X12: in serve mode, code in which the placeholder does not occur
    reaches [transformOnServe] unchanged, whatever the dev-server URL is
    and also before it is known. *)
Theorem transform_without_placeholder
    (p : Plugin) (rc : ResolvedConfig) (code : string) :
  resolvedConfig p = Some rc → command rc = Serve →
  occursIn placeholder code = false →
  transform p code
  = Return (Some (transformOnServe (pluginConfig p) code (viteDevServerUrl p))).
Proof.
  intros Hrc Hserve Hocc. rewrite (transform_serve p rc) by done.
  unfold Replace.replaceAll. by rewrite go_no_occurrence.
Qed.

Lemma transform_without_placeholder_witness :
  transform (samplePlugin Serve None (Some "http://a$$b:5173"))
    "export default '__backend_vite_placeholder_'"
  = Return (Some "export default '__backend_vite_placeholder_'").
Proof.
  by rewrite (transform_without_placeholder
                (samplePlugin Serve None (Some "http://a$$b:5173"))
                (sampleResolvedConfig Serve)).
Defined.

(** X13: the hook needs [configResolved] to have run and throws a type
    error before that; in serve mode before the server is listening, when
    the dev-server URL is still [undefined], it puts the text "undefined"
    in the place of every placeholder and hands [undefined] to
    [transformOnServe]. *)
Theorem transform_too_early (p : Plugin) (code : string) :
  (resolvedConfig p = None → transform p code = Throw (undefinedProperty "command"))
  ∧ (∀ rc, resolvedConfig p = Some rc → command rc = Serve →
       viteDevServerUrl p = None →
       transform p code
       = Return (Some (transformOnServe (pluginConfig p)
                         (Replace.replaceEvery placeholder "undefined" code) None))).
Proof.
  split.
  - unfold transform. by intros ->.
  - intros rc Hrc Hserve Hurl. rewrite (transform_serve p rc) by done.
    rewrite Hurl. simpl. by rewrite replaceAll_replaceEvery.
Qed.

Lemma transform_too_early_witness :
  transform (resolveBackendPlugin samplePluginConfig) "x"
  = Throw (undefinedProperty "command")
  ∧ transform (samplePlugin Serve None None) "import '__backend_vite_placeholder__/a.js'"
    = Return (Some "import 'undefined/a.js'").
Proof.
  split.
  - by apply (transform_too_early (resolveBackendPlugin samplePluginConfig) "x").
  - destruct (transform_too_early (samplePlugin Serve None None)
                "import '__backend_vite_placeholder__/a.js'") as [_ H].
    by rewrite (H (sampleResolvedConfig Serve)).
Defined.

(** ** More on the listening handler *)

Lemma onListening_object
    (p : Plugin) (devServer : ViteDevServer) (w : Process)
    (a : AddressInfo) (uc : UserConfig) :
  httpServerAddress devServer = AddressObject a →
  userConfig p = Some uc →
  Fs.writable (files w) (hotFile (pluginConfig p)) = true →
  let url :=
    if truthy (server uc ≫= origin) then show (server uc ≫= origin)
    else resolveDevServerUrl a (serverConfig devServer) in
  onListening p devServer w
  = (setViteDevServerUrl p url,
     Return (withFiles w (<[hotFile (pluginConfig p) := url]> (files w)))).
Proof.
  intros Ha Huc Hhot. unfold onListening, listeningUrl. rewrite Ha, Huc. simpl.
  destruct (truthy (server uc ≫= origin)); simpl;
    by rewrite (writeFileSync_writable _ _ _ Hhot).
Qed.

(** X14: whatever the address is, a listening handler that returns has
    left every file other than the hot file as it was, has attached no
    listener and has not touched the guard; of the plugin object it can
    only have changed the dev-server URL. *)
Theorem onListening_frame
    (p p' : Plugin) (devServer : ViteDevServer) (w w' : Process) :
  onListening p devServer w = (p', Return w') →
  (∀ path, path ≠ hotFile (pluginConfig p) → files w' !! path = files w !! path)
  ∧ listeners w' = listeners w
  ∧ exitHandlersBound w' = exitHandlersBound w
  ∧ pluginConfig p' = pluginConfig p
  ∧ resolvedConfig p' = resolvedConfig p
  ∧ userConfig p' = userConfig p.
Proof.
  unfold onListening. destruct (isAddressInfo _); [|by intros [= <- <-]].
  destruct (userConfig p) as [uc|] eqn:Huc; [|done].
  destruct (listeningUrl _ _ _) as [url|]; [|done].
  destruct (Fs.writeFileSync _ _ _) as [files'|] eqn:Hwrite; [|done].
  simpl. intros [= <- <-]. simpl. split; [|by rewrite Huc].
  intros path Hpath. unfold Fs.writeFileSync in Hwrite.
  destruct (hotFile (pluginConfig p)) as [|c hot]; [done|].
  destruct (Fs.isDirectory _ _); [done|].
  destruct (unwritable _ !! _); [done|]. injection Hwrite as <-.
  by rewrite files_lookup_insert_ne.
Qed.

Lemma onListening_frame_witness :
  ∃ p' w',
    onListening (samplePlugin Serve None None)
      (sampleServer
         (AddressObject {| address := "127.0.0.1"; family := FamilyName "IPv4";
                           port := 5173 |}))
      (startOfProcess sampleFiles)
    = (p', Return w')
    ∧ files w' !! "/etc/ssl/app.key" = Some "KEY"
    ∧ listeners w' = [].
Proof.
  do 2 eexists. split; [reflexivity|].
  match goal with
  | |- files ?w' !! _ = _ ∧ _ =>
      destruct (onListening_frame (samplePlugin Serve None None) _
                  (sampleServer
                     (AddressObject {| address := "127.0.0.1";
                                       family := FamilyName "IPv4"; port := 5173 |}))
                  (startOfProcess sampleFiles) w' eq_refl) as (Hfiles & Hls & _)
  end.
  split; [by rewrite Hfiles|done].
Defined.

Lemma onListening_pipe_or_undefined_witness :
  onListening (samplePlugin Serve (Some "https://assets.test") None)
    (sampleServer (AddressPipe "/tmp/vite.sock")) (startOfProcess ∅)
  = (samplePlugin Serve (Some "https://assets.test") None, Return (startOfProcess ∅))
  ∧ onListening (samplePlugin Serve None None)
      (sampleServer AddressUndefined) (startOfProcess ∅)
    = (samplePlugin Serve None None, Return (startOfProcess ∅)).
Proof.
  split.
  - apply onListening_pipe_or_undefined. right. by exists "/tmp/vite.sock".
  - apply onListening_pipe_or_undefined. by left.
Defined.

Lemma onListening_null_without_origin_witness :
  onListening (samplePlugin Serve None None) (sampleServer AddressNull)
    (startOfProcess ∅)
  = (samplePlugin Serve None None, Throw (nullProperty "family")).
Proof.
  by apply (onListening_null_without_origin (samplePlugin Serve None None)
              (sampleServer AddressNull) (startOfProcess ∅)
              (sampleUserConfig None
                 (Some {| origin := None; host := None; hmr := None; https := None |}))).
Defined.


(** ** More on exit and on [configureServer] *)







(** X20: [configureServer] never touches a file: after any sequence of
    calls, successful or not, the files are what they were, and a guard
    that was set stays set. The hot file is written by the listening
    handler and by nothing else. *)
Theorem configureServers_files (ps : list Plugin) (w : Process) :
  files (configureServers ps w) = files w
  ∧ (exitHandlersBound w = true → exitHandlersBound (configureServers ps w) = true).
Proof.
  revert w. induction ps as [|p ps IH]; intros w; [done|].
  unfold configureServers in *. simpl.
  destruct (configureServer p w) as [w1|e] eqn:Hp; [|apply IH].
  destruct (IH w1) as [Hfiles Hflag].
  assert (files w1 = files w) as Hw1.
  { unfold configureServer in Hp. destruct (resolvedConfig p); [|done].
    destruct (exitHandlersBound w); by injection Hp as <-. }
  split; [by rewrite Hfiles|].
  intros _. apply Hflag. by apply configureServer_sets_flag in Hp.
Qed.

Lemma configureServers_files_witness :
  files (configureServers
           [samplePlugin Serve None None; resolveBackendPlugin samplePluginConfig]
           (startOfProcess sampleFiles))
  = sampleFiles.
Proof.
  by destruct (configureServers_files
                 [samplePlugin Serve None None; resolveBackendPlugin samplePluginConfig]
                 (startOfProcess sampleFiles)) as [-> _].
Defined.

(** ** The development index page *)

(** X21: the middleware answers a request only when its URL is exactly
    "/index.html": any other URL, also one with a query string, leaves the
    response untouched and goes on to [next()]. For "/index.html" the
    status becomes 404 and the body is the page file with every
    "{{ APP_URL }}" replaced by the application URL (for an application URL
    without [$]), after which [next()] is called all the same; when the
    page file is missing the read throws after the status has been set,
    and nothing is sent. *)
Theorem indexMiddleware_behaviour
    (path_join : string → string → string) (files : FileSystem)
    (dirname appUrl : string) (url : option string) (res : Response) :
  let page := path_join dirname "dev-server-index.html" in
  let run := indexMiddleware path_join files dirname appUrl url res in
  (url ≠ Some "/index.html" → run = (res, Return tt))
  ∧ (url = Some "/index.html" →
     (∀ html, Fs.readFileSync files (Some page) = Return html →
        ended res = None → Str.mem "$" appUrl = false →
        run = ({| statusCode := 404;
                  ended := Some (Replace.replaceEvery appUrlToken appUrl html) |},
               Return tt))
     ∧ (∀ e, Fs.readFileSync files (Some page) = Throw e →
          run = ({| statusCode := 404; ended := ended res |}, Throw e))).
Proof.
  intros page run. subst run. unfold indexMiddleware. fold page. split.
  - intros Hurl. by case_decide.
  - intros ->. case_decide; [|done]. split.
    + intros html -> -> Hplain. by rewrite replaceAll_replaceEvery.
    + by intros e ->.
Qed.

Lemma indexMiddleware_behaviour_witness :
  let files : FileSystem :=
    <["/plugin/dist/dev-server-index.html" := "<a href='{{ APP_URL }}'>{{ APP_URL }}</a>"]> ∅ in
  let fresh := {| statusCode := 200; ended := None |} in
  indexMiddleware Posix.join files "/plugin/dist/" "http://app.test"
    (Some "/index.html?v=1") fresh
  = (fresh, Return tt)
  ∧ indexMiddleware Posix.join files "/plugin/dist/" "http://app.test"
      (Some "/index.html") fresh
    = ({| statusCode := 404;
          ended := Some "<a href='http://app.test'>http://app.test</a>" |},
       Return tt)
  ∧ indexMiddleware Posix.join ∅ "/plugin/dist/" "http://app.test"
      (Some "/index.html") fresh
    = ({| statusCode := 404; ended := None |},
       Throw (SystemError "ENOENT" "/plugin/dist/dev-server-index.html")).
Proof.
  intros files fresh. split; [|split].
  - by apply (indexMiddleware_behaviour Posix.join files "/plugin/dist/"
                "http://app.test" (Some "/index.html?v=1") fresh).
  - destruct (indexMiddleware_behaviour Posix.join files "/plugin/dist/"
                "http://app.test" (Some "/index.html") fresh) as [_ H].
    destruct (H eq_refl) as [Hpage _].
    by rewrite (Hpage "<a href='{{ APP_URL }}'>{{ APP_URL }}</a>").
  - destruct (indexMiddleware_behaviour Posix.join ∅ "/plugin/dist/"
                "http://app.test" (Some "/index.html") fresh) as [_ H].
    destruct (H eq_refl) as [_ Hmissing].
    by rewrite (Hmissing (SystemError "ENOENT" "/plugin/dist/dev-server-index.html")).
Defined.

(** ** From [backend] to [transform] *)

(** X22: for a plugin object made by [backend], taken through the [config]
    hook in serve mode (whether or not the hook throws), [configResolved]
    and the listening handler with an [AddressInfo], and with a hot file
    path at which a file can be written, the URL that [transform] puts in
    place of the placeholder is the very text of the hot file (for a URL
    without [$]), and it is handed to [transformOnServe] too. *)
Theorem backend_url_consistent
    (path_join : string → string → string) (url_host : string → option string)
    (loadEnv : FileSystem → string → string → string → Result (gmap string string))
    (cwd : string) (arg : ConfigArg) (p0 : Plugin) (files0 : FileSystem)
    (mode : string) (uc : UserConfig) (rc : ResolvedConfig)
    (devServer : ViteDevServer) (a : AddressInfo) (w : Process) (code : string) :
  backend path_join arg = Return p0 →
  command rc = Serve →
  httpServerAddress devServer = AddressObject a →
  Fs.writable (files w) (hotFile (pluginConfig p0)) = true →
  let p2 :=
    configResolved
      (fst (configHook path_join url_host loadEnv cwd p0 files0 uc Serve mode)) rc in
  ∃ p3 w' url,
    onListening p2 devServer w = (p3, Return w')
    ∧ Fs.readFileSync (files w') (Some (hotFile (pluginConfig p0))) = Return url
    ∧ viteDevServerUrl p3 = Some url
    ∧ (Str.mem "$" url = false →
       transform p3 code
       = Return (Some (transformOnServe (pluginConfig p0)
                         (Replace.replaceEvery placeholder url code) (Some url)))).
Proof.
  intros _ Hserve Ha Hhot p2.
  pose proof (onListening_object p2 devServer w a uc Ha eq_refl Hhot) as Hrun.
  simpl in Hrun.
  set (url := if truthy (server uc ≫= origin) then show (server uc ≫= origin)
              else resolveDevServerUrl a (serverConfig devServer)) in *.
  exists (setViteDevServerUrl p2 url),
         (withFiles w (<[hotFile (pluginConfig p0) := url]> (files w))), url.
  split; [done|]. split.
  { apply readFileSync_stat, stat_insert. by eapply writable_nonempty. }
  split; [done|].
  intros Hplain. rewrite (transform_serve (setViteDevServerUrl p2 url) rc) by done.
  simpl. by rewrite replaceAll_replaceEvery.
Qed.

Lemma backend_url_consistent_witness :
  ∃ p0 p3 w',
    backend Posix.join (ArgString "resources/js/app.js") = Return p0
    ∧ onListening
        (configResolved
           (fst (configHook Posix.join sampleUrlHost (sampleLoadEnv ∅) "/srv/app"
                   p0 ∅ (sampleUserConfig None None) Serve "development"))
           (sampleResolvedConfig Serve))
        (sampleServer
           (AddressObject {| address := "::1"; family := FamilyName "IPv6";
                             port := 5173 |}))
        (startOfProcess ∅)
      = (p3, Return w')
    ∧ Fs.readFileSync (files w') (Some "public/hot") = Return "http://[::1]:5173"
    ∧ transform p3 "import '__backend_vite_placeholder__/@vite/client'"
      = Return (Some "import 'http://[::1]:5173/@vite/client'").
Proof.
  eexists.
  destruct (backend_url_consistent Posix.join sampleUrlHost (sampleLoadEnv ∅)
              "/srv/app" (ArgString "resources/js/app.js") _ ∅ "development"
              (sampleUserConfig None None) (sampleResolvedConfig Serve)
              (sampleServer
                 (AddressObject {| address := "::1"; family := FamilyName "IPv6";
                                   port := 5173 |}))
              {| address := "::1"; family := FamilyName "IPv6"; port := 5173 |}
              (startOfProcess ∅)
              "import '__backend_vite_placeholder__/@vite/client'"
              eq_refl eq_refl eq_refl)
    as (p3 & w' & url & Hrun & Hread & Hurl & Htransform);
    [by vm_compute|].
  exists p3, w'. split; [reflexivity|]. split; [exact Hrun|].
  injection Hrun as <- <-. simpl in Hurl. injection Hurl as <-.
  split; [exact Hread|]. by apply Htransform.
Defined.

(** ** Dev-server URLs with a dollar sign *)

Lemma getSubstitution_verbatim matched before after replacement :
  hasDollarPattern replacement = false →
  Replace.getSubstitution matched before after replacement = replacement.
Proof.
  induction replacement as [|c r IH]; [done|].
  cbn [hasDollarPattern Replace.getSubstitution].
  intros H. apply orb_false_iff in H as [Hhere Hrest].
  rewrite (IH Hrest).
  destruct (Ascii.eqb c "$"); [|done].
  destruct r as [|d r']; [done|]. cbn [andb] in Hhere.
  repeat (apply orb_false_iff in Hhere as [Hhere ?]).
  by repeat match goal with H : Ascii.eqb d _ = false |- _ => rewrite H; clear H end.
Qed.

Lemma go_verbatim pat replacement s :
  hasDollarPattern replacement = false →
  ∀ skip before,
    Replace.go pat replacement skip before s
    = Replace.every_go pat replacement skip s.
Proof.
  intros H. induction s as [|c s IH]; intros skip before; simpl; [done|].
  destruct skip as [|k]; [|apply IH].
  rewrite getSubstitution_verbatim by done. by rewrite !IH.
Qed.

(** X23: in serve mode, for a dev-server URL that holds none of the
    replacement patterns [$$], [$&], [$`] and [$'] (a [$] elsewhere is
    allowed), the hook replaces every occurrence of the placeholder in the
    code by the URL itself and returns what [transformOnServe] makes of
    the replaced code and the URL. When the command is not serve the hook
    replaces nothing and returns nothing. *)
Theorem transform_serve_only (p : Plugin) (rc : ResolvedConfig) (code : string) :
  resolvedConfig p = Some rc →
  (command rc = Serve →
   ∀ url, viteDevServerUrl p = Some url → hasDollarPattern url = false →
     transform p code
     = Return (Some (transformOnServe (pluginConfig p)
                       (Replace.replaceEvery placeholder url code) (Some url))))
  ∧ (command rc = Build → transform p code = Return None).
Proof.
  intros Hrc. split.
  - intros Hserve url Hurl Hplain. rewrite (transform_serve p rc) by done.
    rewrite Hurl. simpl. unfold Replace.replaceAll. by rewrite go_verbatim.
  - unfold transform. rewrite Hrc. by intros ->.
Qed.

Lemma transform_serve_only_witness :
  transform (samplePlugin Serve None (Some "http://a$b:5173/$"))
    "fetch('__backend_vite_placeholder__/@vite/client')"
  = Return (Some "fetch('http://a$b:5173/$/@vite/client')")
  ∧ transform (samplePlugin Build None None)
      "fetch('__backend_vite_placeholder__/@vite/client')"
    = Return None.
Proof.
  split.
  - destruct (transform_serve_only (samplePlugin Serve None (Some "http://a$b:5173/$"))
                (sampleResolvedConfig Serve)
                "fetch('__backend_vite_placeholder__/@vite/client')" eq_refl)
      as [Hserve _].
    by rewrite (Hserve eq_refl "http://a$b:5173/$").
  - destruct (transform_serve_only (samplePlugin Build None None)
                (sampleResolvedConfig Build)
                "fetch('__backend_vite_placeholder__/@vite/client')" eq_refl)
      as [_ Hbuild].
    by apply Hbuild.
Defined.
